(** * YourTrend-AI: the video idea generator (YTPI.py) and the report writer
      (dsp_streamlit/reportwriter_final.py), embedded shallowly.

    Python [str] values are represented by their UTF-8 encoding in Rocq's
    [string] (one [ascii] per byte).  Every character the two programs
    compare against (['/'], ['.'], ['\r'], ['\n'], the ASCII letters of the
    file extensions) is a one-byte code that never occurs inside a multi-byte
    sequence, so splitting, searching and slicing at those characters is the
    same on bytes as on code points.  A [str] with a lone surrogate has no
    encoding and is outside the model.  Python [int] is [Z]; [//] and [%] with a
    positive divisor are [Z.div] and [Z.modulo] (both round towards minus
    infinity). *)

From Stdlib Require Import ZArith Lia String Ascii DecimalString.
From stdpp Require Import gmap strings list.

Open Scope string_scope.
Open Scope Z_scope.

(** ** Python string primitives *)
Module Py.

(** [str(n)] for an [int]. *)
Definition str (n : Z) : string := NilZero.string_of_int (Z.to_int n).

(** [sep.join(parts)]. *)
Fixpoint join (sep : string) (parts : list string) : string :=
  match parts with
  | [] => ""
  | [p] => p
  | p :: rest => p +:+ sep +:+ join sep rest
  end.

(** Truthiness of a [str]: non-empty. *)
Definition truthy (s : string) : bool :=
  match s with EmptyString => false | String _ _ => true end.

(** Truthiness of a [str] or [None]. *)
Definition truthy_opt (s : option string) : bool :=
  match s with Some t => truthy t | None => false end.

(** [s.rfind(c)] for a one-character [c], as [Some index] or [None] for -1. *)
Fixpoint rfind (c : ascii) (s : string) : option nat :=
  match s with
  | EmptyString => None
  | String a r =>
      match rfind c r with
      | Some i => Some (S i)
      | None => if Ascii.eqb a c then Some O else None
      end
  end.

(** [s[:n]] and [s[n:]] for [0 <= n]. *)
Fixpoint take (n : nat) (s : string) : string :=
  match n, s with
  | S k, String a r => String a (take k r)
  | _, _ => EmptyString
  end.

Fixpoint drop (n : nat) (s : string) : string :=
  match n, s with
  | S k, String _ r => drop k r
  | _, _ => s
  end.

(** [c in s] for a one-character [c]. *)
Fixpoint contains (c : ascii) (s : string) : bool :=
  match s with
  | EmptyString => false
  | String a r => Ascii.eqb a c || contains c r
  end.

(** ['0' * k + digits]: left padding with zeros up to [width]. *)
Definition zfill (width : nat) (digits : string) : string :=
  String.concat "" (replicate (width - String.length digits)%nat "0") +:+ digits.

(** [format(n, "02d")]: zero fill is sign aware, the sign counts in the width. *)
Definition format_02d (n : Z) : string :=
  if n <? 0 then "-" +:+ zfill 1 (str (- n)) else zfill 2 (str n).

(** [xs[:k]] on a list, for any [int] [k]: a negative [k] counts from the
    end. *)
Definition slice_to {A} (xs : list A) (k : Z) : list A :=
  if 0 <=? k then firstn (Z.to_nat k) xs
  else firstn (length xs - Z.to_nat (- k))%nat xs.

(** Exceptions, all below [Exception]: the ones the scripts raise themselves
    and those of the operating system and of the libraries. *)
Inductive exn :=
| ValueError (msg : string)
| OSError (msg : string)
| EOFError
| LibraryError (msg : string).

(** [str(e)]. *)
Definition exn_str (e : exn) : string :=
  match e with
  | ValueError m | OSError m | LibraryError m => m
  | EOFError => ""
  end.

(** A call returns or raises. *)
Inductive outcome (A : Type) :=
| Return (a : A)
| Raise (e : exn).
Arguments Return {A} a.
Arguments Raise {A} e.

End Py.

(** ** YTPI.py *)
Module YTPI.

Definition no_duration : string := "길이 정보 없음".

(** [format_duration], lines 137-146.  The parameter [seconds] is rebound at
    line 143; [secs] is that second binding. *)
Definition format_duration (seconds : Z) : string :=
  if seconds =? 0 then no_duration
  else
    let hours := seconds / 3600 in
    let minutes := (seconds mod 3600) / 60 in
    let secs := seconds mod 60 in
    if hours >? 0
    then Py.str hours +:+ ":" +:+ Py.format_02d minutes +:+ ":" +:+ Py.format_02d secs
    else Py.str minutes +:+ ":" +:+ Py.format_02d secs.

(** *** pathlib: [Path(url).stem] (POSIX flavour, Python 3.4 - 3.13) *)

(** [s.split(c)] for a one-character separator. *)
Fixpoint split (c : ascii) (s : string) : list string :=
  match s with
  | EmptyString => [""]
  | String a r =>
      if Ascii.eqb a c then "" :: split c r
      else match split c r with
           | h :: t => String a h :: t
           | [] => [String a ""]
           end
  end.

(** The parsed parts of a path keep every component that is neither empty
    nor ["."]. *)
Definition is_part (x : string) : bool :=
  Py.truthy x && negb (String.eqb x ".").

(** [PurePath.name]: the last part, [""] when there is none. *)
Definition path_name (p : string) : string :=
  List.last (List.filter is_part (split "/" p)) "".

(** [PurePath.stem]: the name without its last suffix; a leading or a
    trailing dot does not start a suffix ([0 < i < len(name) - 1]). *)
Definition path_stem (p : string) : string :=
  let name := path_name p in
  match Py.rfind "." name with
  | Some i =>
      if (0 <? i)%nat && (i <? String.length name - 1)%nat
      then Py.take i name else name
  | None => name
  end.

(** The file [download_audio] hands back, lines 82 and 87. *)
Definition temp_audio_path (url : string) : string :=
  "temp_audio_" +:+ path_stem url +:+ ".mp3".

(** The URL [get_video_info] builds for a search hit, line 33. *)
Definition video_url (video_id : string) : string :=
  "https://youtube.com/watch?v=" +:+ video_id.

(** *** Search results *)

(** A pytube search hit: [title] and [author] are properties that fetch the
    watch page and may raise. *)
Record video := {
  video_id : string;
  title : string + string;
  author : string + string
}.

(** The dictionary [extract_info] returns, by the keys the script reads.
    For each key: [None] when the dictionary has no such key, [Some None]
    when it holds Python's [None] there, [Some (Some v)] for a value; the
    length and the view count, where yt-dlp gives them, are whole numbers. *)
Record info_dict := {
  info_title : option (option string);
  info_thumbnail : option (option string);
  info_duration : option (option Z);
  info_view_count : option (option Z);
  info_uploader : option (option string)
}.

(** [d.get(key, fallback)]: the fallback only stands in for a missing key;
    a [None] held under the key comes back as [None]. *)
Definition dict_get {T} (entry : option (option T)) (fallback : T) : option T :=
  match entry with
  | None => Some fallback
  | Some value => value
  end.

(** A row of the search table; a field other than the URL can hold
    Python's [None]. *)
Record video_info := {
  row_title : option string;
  row_url : string;
  row_thumbnail : option string;
  row_duration : option Z;
  row_view_count : option Z;
  row_author : option string
}.

(** *** The outside world of the video pipeline *)

(** The third-party services, as the functions the script sees: a result
    ([inl]) or the text of the exception they raise ([inr]).
    - [fetch url]: what yt-dlp with the FFmpeg post-processor leaves in the
      output file for [url];
    - [whisper audio]: [model.transcribe(...)["text"]] for the file content
      found at the path ([None]: no such file), including the loading of
      torch and of the model;
    - [complete key prompt]: the chat completion, with the credential the
      client finds in the environment;
    - [search keyword]: [Search(keyword).results];
    - [extract_info url]: yt-dlp's metadata for [url];
    - [insert video_urls transcript idea]: the [INSERT] into the table
      [ideas] of [project_ideas.db] with its commit, [None] when it goes
      through and the text of the exception otherwise. *)
Record services := {
  search : string -> list video + string;
  extract_info : string -> info_dict + string;
  fetch : string -> string + string;
  whisper : option string -> string + string;
  complete : option string -> string -> string + string;
  insert : string -> string -> string -> option string
}.

(** Calls that leave the script, in program order. *)
Inductive call :=
| Download (url : string)
| Transcribe (audio_path : string)
| Remove (audio_path : string)
| Synthesize (transcripts : list string)
| Persist (video_urls transcript idea : string).

(** Streamlit status boxes. *)
Inductive level := StError | StWarning | StSuccess | StWrite.

(** What the script can change: the audio files of the working directory,
    the rows of the table [ideas] (the content of [project_ideas.db], which
    is not among [files]), what the page shows, and the log of calls. *)
Record world := {
  files : gmap string string;
  ideas : list (string * string * string);
  shown : list (level * string);
  calls : list call
}.

Definition log (c : call) (w : world) : world :=
  {| files := files w; ideas := ideas w; shown := shown w;
     calls := (calls w ++ [c])%list |}.

Definition show (l : level) (msg : string) (w : world) : world :=
  {| files := files w; ideas := ideas w; shown := (shown w ++ [(l, msg)])%list;
     calls := calls w |}.

Definition set_files (f : gmap string string) (w : world) : world :=
  {| files := f; ideas := ideas w; shown := shown w; calls := calls w |}.

Definition add_idea (row : string * string * string) (w : world) : world :=
  {| files := files w; ideas := (ideas w ++ [row])%list; shown := shown w;
     calls := calls w |}.

(** [download_audio], lines 74-90: the path or [None]. *)
Definition download_audio (sv : services) (url : string) (w : world)
  : option string * world :=
  let w := log (Download url) w in
  match fetch sv url with
  | inl audio =>
      (Some (temp_audio_path url),
       set_files (<[temp_audio_path url := audio]> (files w)) w)
  | inr e => (None, show StError ("오디오 다운로드 중 오류 발생: " +:+ e) w)
  end.

(** [transcribe_audio], lines 92-107: the text, [""] after an exception. *)
Definition transcribe_audio (sv : services) (audio_path : string) (w : world)
  : string * world :=
  let w := log (Transcribe audio_path) w in
  match whisper sv (files w !! audio_path) with
  | inl text => (text, w)
  | inr e => ("", show StError ("음성 변환 중 오류 발생: " +:+ e) w)
  end.

(** [os.remove] inside its [try], lines 222-225. *)
Definition remove_temp (audio_path : string) (w : world) : world :=
  let w := log (Remove audio_path) w in
  match files w !! audio_path with
  | Some _ => set_files (delete audio_path (files w)) w
  | None =>
      show StWarning ("임시 파일 삭제 중 오류 발생: [Errno 2] No such file or directory: '"
                        +:+ audio_path +:+ "'") w
  end.

(** One turn of the loop of lines 212-225. *)
Definition process_video (sv : services) (st : list string * world) (url : string)
  : list string * world :=
  let '(all_transcripts, w) := st in
  let '(audio_path, w) := download_audio sv url w in
  match audio_path with
  | Some audio_path =>
      if Py.truthy audio_path then
        let '(transcript, w) := transcribe_audio sv audio_path w in
        let all_transcripts :=
          if Py.truthy transcript then (all_transcripts ++ [transcript])%list
          else all_transcripts in
        (all_transcripts, remove_temp audio_path w)
      else (all_transcripts, w)
  | None => (all_transcripts, w)
  end.

(** The whole loop, starting from [all_transcripts = []] (line 209). *)
Definition process_videos (sv : services) (selected_videos : list string) (w : world)
  : list string * world :=
  fold_left (process_video sv) selected_videos ([], w).

Definition idea_prompt (transcripts : list string) : string :=
  "다음 영상들의 내용을 바탕으로 프로젝트 아이디어를 제안해주세요: "
    +:+ Py.join (String "010" "") transcripts.

(** [generate_idea], lines 109-123. *)
Definition generate_idea (sv : services) (key : option string)
    (transcripts : list string) (w : world) : string * world :=
  let w := log (Synthesize transcripts) w in
  match complete sv key (idea_prompt transcripts) with
  | inl content => (content, w)
  | inr e => ("", show StError ("아이디어 생성 중 오류 발생: " +:+ e) w)
  end.

(** [save_idea], lines 125-135: the row is there when the insertion went
    through; an exception only shows an error box. *)
Definition save_idea (sv : services) (video_urls : list string)
    (transcript idea : string) (w : world) : world :=
  let urls_str := Py.join ", " video_urls in
  let w := log (Persist urls_str transcript idea) w in
  match insert sv urls_str transcript idea with
  | None => add_idea (urls_str, transcript, idea) w
  | Some e => show StError ("아이디어 저장 중 오류 발생: " +:+ e) w
  end.

(** The body of the button handler, lines 207-246, for a pressed button and
    the list of checked URLs; [key] is [os.getenv("OPENAI_API_KEY")]. *)
Definition generate_from_selection (sv : services) (key : option string)
    (selected_videos : list string) (w : world) : world :=
  match selected_videos with
  | [] => w
  | _ =>
      let '(all_transcripts, w) := process_videos sv selected_videos w in
      match all_transcripts with
      | _ :: _ =>
          let w := fold_left (fun w t => show StWrite t w) all_transcripts w in
          let combined_transcript := Py.join (String "010" "") all_transcripts in
          let '(idea, w) := generate_idea sv key all_transcripts w in
          if Py.truthy idea then
            let w := show StWrite idea w in
            let w := save_idea sv selected_videos combined_transcript idea w in
            show StSuccess "아이디어가 생성되고 저장되었습니다!" w
          else w
      | [] => show StError "선택한 영상에서 텍스트를 추출할 수 없습니다." w
      end
  end.

(** [x or d] on a string. *)
Definition or_default (x d : string) : string :=
  if Py.truthy x then x else d.

Definition default_thumbnail (v : video) : string :=
  "https://img.youtube.com/vi/" +:+ video_id v +:+ "/maxresdefault.jpg".

(** [get_video_info], lines 30-60.  The handler of line 51 reads
    [video.title] and [video.author] again, outside any [try]. *)
Definition get_video_info (sv : services) (v : video) (w : world)
  : Py.outcome video_info * world :=
  let url := video_url (video_id v) in
  match extract_info sv url with
  | inl result =>
      (Py.Return
         {| row_title := dict_get (info_title result) "제목 없음";
            row_url := url;
            row_thumbnail := dict_get (info_thumbnail result) (default_thumbnail v);
            row_duration := dict_get (info_duration result) 0;
            row_view_count := dict_get (info_view_count result) 0;
            row_author := dict_get (info_uploader result) "작성자 정보 없음" |}, w)
  | inr e =>
      let w := show StWarning ("영상 정보를 가져오는 중 오류 발생: " +:+ e) w in
      match title v with
      | inr e' => (Py.Raise (Py.LibraryError e'), w)
      | inl t =>
          match author v with
          | inr e' => (Py.Raise (Py.LibraryError e'), w)
          | inl a =>
              (Py.Return
                 {| row_title := Some (or_default t "제목 없음");
                    row_url := url;
                    row_thumbnail := Some (default_thumbnail v);
                    row_duration := Some 0;
                    row_view_count := Some 0;
                    row_author := Some (or_default a "작성자 정보 없음") |}, w)
          end
      end
  end.

(** The loop of lines 66-68; an exception leaves it at once. *)
Fixpoint collect_infos (sv : services) (vs : list video) (videos : list video_info)
    (w : world) : Py.outcome (list video_info) * world :=
  match vs with
  | [] => (Py.Return videos, w)
  | v :: rest =>
      match get_video_info sv v w with
      | (Py.Return video_info, w) =>
          collect_infos sv rest (videos ++ [video_info])%list w
      | (Py.Raise e, w) => (Py.Raise e, w)
      end
  end.

(** [search_videos], lines 61-72.  A data frame is the list of its rows;
    [pd.DataFrame()] is the empty list. *)
Definition search_videos (sv : services) (keyword : string) (max_results : Z)
    (w : world) : Py.outcome (list video_info) * world :=
  match search sv keyword with
  | inr e => (Py.Return [], show StError ("검색 중 오류 발생: " +:+ e) w)
  | inl results =>
      match collect_infos sv (Py.slice_to results max_results) [] w with
      | (Py.Return videos, w) => (Py.Return videos, w)
      | (Py.Raise e, w) =>
          (Py.Return [], show StError ("검색 중 오류 발생: " +:+ Py.exn_str e) w)
      end
  end.

End YTPI.

(** ** dsp_streamlit/reportwriter_final.py *)
Module ReportWriter.

Definition LF : ascii := "010"%char.
Definition CR : ascii := "013"%char.

(** *** Text files: the UTF-8 codec and newline translation *)

Definition is_cont (b : nat) : bool := (128 <=? b)%nat && (b <=? 191)%nat.

(** What the strict UTF-8 decoder accepts (RFC 3629: shortest forms, no
    surrogates, nothing above U+10FFFF). *)
Fixpoint valid_utf8 (s : string) : bool :=
  match s with
  | EmptyString => true
  | String c0 r0 =>
      let b0 := nat_of_ascii c0 in
      if (b0 <? 128)%nat then valid_utf8 r0
      else
        match r0 with
        | EmptyString => false
        | String c1 r1 =>
            let b1 := nat_of_ascii c1 in
            if (194 <=? b0)%nat && (b0 <=? 223)%nat then is_cont b1 && valid_utf8 r1
            else
              match r1 with
              | EmptyString => false
              | String c2 r2 =>
                  let b2 := nat_of_ascii c2 in
                  if (224 <=? b0)%nat && (b0 <=? 239)%nat then
                    is_cont b1 && is_cont b2
                    && (if (b0 =? 224)%nat then (160 <=? b1)%nat
                        else if (b0 =? 237)%nat then (b1 <=? 159)%nat else true)
                    && valid_utf8 r2
                  else
                    match r2 with
                    | EmptyString => false
                    | String c3 r3 =>
                        let b3 := nat_of_ascii c3 in
                        (240 <=? b0)%nat && (b0 <=? 244)%nat
                        && is_cont b1 && is_cont b2 && is_cont b3
                        && (if (b0 =? 240)%nat then (144 <=? b1)%nat
                            else if (b0 =? 244)%nat then (b1 <=? 143)%nat else true)
                        && valid_utf8 r3
                    end
              end
        end
  end.

(** Reading in text mode with the default [newline=None]: ["\r\n"] and a
    lone ["\r"] both come out as ["\n"]. *)
Fixpoint universal_newlines (s : string) : string :=
  match s with
  | EmptyString => EmptyString
  | String c r =>
      if Ascii.eqb c CR then
        match r with
        | String c' r' =>
            if Ascii.eqb c' LF then String LF (universal_newlines r')
            else String LF (universal_newlines r)
        | EmptyString => String LF EmptyString
        end
      else String c (universal_newlines r)
  end.

(** Writing in text mode with the default [newline=None]: every ["\n"]
    becomes [os.linesep]. *)
Fixpoint write_newlines (linesep : string) (s : string) : string :=
  match s with
  | EmptyString => EmptyString
  | String c r =>
      if Ascii.eqb c LF then linesep +:+ write_newlines linesep r
      else String c (write_newlines linesep r)
  end.

(** [os.linesep] of a POSIX system, the system of this model throughout
    (see [path_join] and [dirname]); on Windows it is ["\r\n"], and
    [write_newlines] then changes every text with a line feed. *)
Definition os_linesep : string := String LF "".

(** *** The file system and the console *)

(** A path names a directory or a regular file; [accessible] is the
    permission of the running user to open the file. *)
Inductive node :=
| Dir
| File (accessible : bool) (data : string).

(** A paragraph of a word-processor document. *)
Record paragraph := {
  style_name : string;
  text : string
}.

(** The libraries behind the script.  The retrieval chain ([chain.invoke]
    on a query) and python-docx's reader on the bytes of a file give a result
    ([inl]) or the text of the exception they raise ([inr]).  The two writers
    [save_report] calls, the PDF writer on the report text and python-docx's
    writer on the file name (for the heading) and the text, give the bytes
    of the document or the exception itself, of whatever class: a
    [UnicodeEncodeError] of the PDF fonts is a [ValueError]. *)
Record libraries := {
  chain_invoke : string -> string + string;
  docx_read : string -> list paragraph + string;
  pdf_render : string -> string + Py.exn;
  docx_render : string -> string -> string + Py.exn
}.

Record state := {
  fs : gmap string node;
  stdin : list string;
  stdout : list string;
  queries : list string
}.

(** Computations that read and change the state and may raise; after a
    [Raise] the state is the one reached when the exception left. *)
Definition M (A : Type) : Type := state -> Py.outcome A * state.

Definition ret {A} (a : A) : M A := fun st => (Py.Return a, st).

Definition raise {A} (e : Py.exn) : M A := fun st => (Py.Raise e, st).

Definition bind {A B} (m : M A) (k : A -> M B) : M B :=
  fun st =>
    match m st with
    | (Py.Return a, st') => k a st'
    | (Py.Raise e, st') => (Py.Raise e, st')
    end.

(** [try: m except Exception as e: handler(e)]. *)
Definition try_except {A} (m : M A) (handler : Py.exn -> M A) : M A :=
  fun st =>
    match m st with
    | (Py.Return a, st') => (Py.Return a, st')
    | (Py.Raise e, st') => handler e st'
    end.

#[global] Instance M_ret : MRet M := @ret.
#[global] Instance M_bind : MBind M := fun A B k m => bind m k.

Definition get_fs : M (gmap string node) := fun st => (Py.Return (fs st), st).

Definition put_fs (f : gmap string node) : M unit := fun st =>
  (Py.Return tt,
   {| fs := f; stdin := stdin st; stdout := stdout st; queries := queries st |}).

Definition print (line : string) : M unit := fun st =>
  (Py.Return tt,
   {| fs := fs st; stdin := stdin st; stdout := (stdout st ++ [line])%list;
      queries := queries st |}).

(** [input(prompt)]: the prompt goes out, a line comes in; [EOFError] at the
    end of the input. *)
Definition input (prompt : string) : M string := fun st =>
  let out := (stdout st ++ [prompt])%list in
  match stdin st with
  | line :: rest =>
      (Py.Return line,
       {| fs := fs st; stdin := rest; stdout := out; queries := queries st |})
  | [] =>
      (Py.Raise Py.EOFError,
       {| fs := fs st; stdin := []; stdout := out; queries := queries st |})
  end.

(** The result of a call of the chain or of the reader. *)
Definition lift {A} (r : A + string) : M A := fun st =>
  match r with
  | inl a => (Py.Return a, st)
  | inr msg => (Py.Raise (Py.LibraryError msg), st)
  end.

(** The result of a call of a writer: its exception comes through as it
    is. *)
Definition lift_exn {A} (r : A + Py.exn) : M A := fun st =>
  match r with
  | inl a => (Py.Return a, st)
  | inr e => (Py.Raise e, st)
  end.

(** One call of the retrieval chain. *)
Definition invoke (lib : libraries) (query : string) : M string := fun st =>
  lift (chain_invoke lib query)
   {| fs := fs st; stdin := stdin st; stdout := stdout st;
      queries := (queries st ++ [query])%list |}.

(** *** os.path (POSIX); paths are compared as they are written *)

(** [os.path.exists]. *)
Definition path_exists (f : gmap string node) (path : string) : bool :=
  match f !! path with Some _ => true | None => false end.

Definition rfind_index (c : ascii) (s : string) : Z :=
  match Py.rfind c s with Some i => Z.of_nat i | None => -1 end.

(** The [while] loop of [genericpath._splitext]: is there, from
    [filenameIndex] on and before the last dot, a character other than a
    dot?  [n] is the distance to the last dot. *)
Fixpoint has_name_before_dot (p : string) (filenameIndex n : nat) : bool :=
  match n with
  | O => false
  | S n' =>
      match String.get filenameIndex p with
      | Some c =>
          if Ascii.eqb c "." then has_name_before_dot p (S filenameIndex) n'
          else true
      | None => true
      end
  end.

(** [os.path.splitext(p)[1]]. *)
Definition splitext_ext (p : string) : string :=
  let sepIndex := rfind_index "/" p in
  let dotIndex := rfind_index "." p in
  if (dotIndex >? sepIndex)
     && has_name_before_dot p (Z.to_nat (sepIndex + 1))
          (Z.to_nat (dotIndex - (sepIndex + 1)))
  then Py.drop (Z.to_nat dotIndex) p
  else "".

Definition lower_ascii (c : ascii) : ascii :=
  let n := nat_of_ascii c in
  if (65 <=? n)%nat && (n <=? 90)%nat then ascii_of_nat (n + 32) else c.

(** [s.lower()], exact on ASCII text.  A character outside ASCII stays
    outside ASCII or becomes a letter that none of the three extensions and
    none of the three formats contains (the Kelvin sign gives [k]), so the
    comparisons below come out as in Python; the lowered text itself, which
    line 148 prints, is Python's only for ASCII text. *)
Fixpoint lower (s : string) : string :=
  match s with
  | EmptyString => EmptyString
  | String c r => String (lower_ascii c) (lower r)
  end.

(** [os.path.join(a, b)]. *)
Definition path_join (a b : string) : string :=
  if String.prefix "/" b then b
  else if negb (Py.truthy a) || String.eqb (Py.drop (String.length a - 1) a) "/"
       then a +:+ b
       else a +:+ "/" +:+ b.

Fixpoint rstrip_slashes_rev (r : list ascii) : list ascii :=
  match r with
  | c :: r' => if Ascii.eqb c "/" then rstrip_slashes_rev r' else r
  | [] => []
  end.

(** [os.path.dirname(p)], with [""] also for the root. *)
Definition dirname (p : string) : string :=
  match Py.rfind "/" p with
  | None => ""
  | Some i =>
      string_of_list_ascii
        (rev (rstrip_slashes_rev (rev (list_ascii_of_string (Py.take (S i) p)))))
  end.

Definition NUL : ascii := "000"%char.

(** Can [open(path, "w")] succeed: a path without a null character that
    names an accessible regular file, or a new name in an existing directory
    (the current directory and the root exist).  Paths are taken as they are
    spelled: a [..] component is not resolved. *)
Definition writable (f : gmap string node) (path : string) : bool :=
  negb (Py.contains NUL path)
  && match f !! path with
     | Some Dir => false
     | Some (File accessible _) => accessible
     | None =>
         let d := dirname path in
         negb (Py.truthy d)
         || match f !! d with Some Dir => true | _ => false end
     end.

(** The bytes behind [open(path, "rb")]. *)
Definition read_bytes (path : string) : M string :=
  f ← get_fs;
  match f !! path with
  | None => raise (Py.OSError "[Errno 2] No such file or directory")
  | Some Dir => raise (Py.OSError "[Errno 21] Is a directory")
  | Some (File false _) => raise (Py.OSError "[Errno 13] Permission denied")
  | Some (File true data) => mret data
  end.

(** [open(path, "r", encoding="utf-8").read()]; [UnicodeDecodeError] is a
    [ValueError]. *)
Definition read_text (path : string) : M string :=
  data ← read_bytes path;
  if valid_utf8 data then mret (universal_newlines data)
  else raise (Py.ValueError "'utf-8' codec can't decode bytes").

(** Replacing the content of [path], as [open(path, "wb")] and a write do.
    A null character in the path is a [ValueError] of [open], anything else
    that keeps the file from opening an [OSError]. *)
Definition write_bytes (path data : string) : M unit :=
  f ← get_fs;
  if Py.contains NUL path then raise (Py.ValueError "embedded null byte")
  else if writable f path then put_fs (<[path := File true data]> f)
  else raise (Py.OSError "cannot open for writing").

(** [open(path, "w", encoding="utf-8")] and [f.write(content)]. *)
Definition write_text (path content : string) : M unit :=
  write_bytes path (write_newlines os_linesep content).

(** [os.makedirs(d, exist_ok=True)] for a one-component [d]. *)
Definition makedirs_exist_ok (d : string) : M unit :=
  f ← get_fs;
  match f !! d with
  | Some Dir => mret tt
  | Some (File _ _) => raise (Py.OSError "[Errno 17] File exists")
  | None => put_fs (<[d := Dir]> f)
  end.

(** *** load_template, lines 120-152 *)

Definition flush_section (sections current_section : list string) : list string :=
  match current_section with
  | [] => sections
  | _ => (sections ++ [Py.join (String LF "") current_section])%list
  end.

(** The loop over [doc.paragraphs] and the last section, lines 133-142. *)
Fixpoint docx_sections (paragraphs : list paragraph)
    (sections current_section : list string) : list string :=
  match paragraphs with
  | [] => flush_section sections current_section
  | p :: rest =>
      if String.prefix "Heading" (style_name p) then
        match current_section with
        | [] => docx_sections rest sections [text p]
        | _ => docx_sections rest (flush_section sections current_section) [text p]
        end
      else docx_sections rest sections (current_section ++ [text p])%list
  end.

Definition blank_line : string := String LF (String LF "").

Definition load_template (lib : libraries) (template_path : string)
  : M (option string) :=
  f ← get_fs;
  if negb (path_exists f template_path) then
    print ("템플릿 파일을 찾을 수 없습니다: " +:+ template_path);;
    mret None
  else
    let file_extension := lower (splitext_ext template_path) in
    try_except
      (if String.eqb file_extension ".docx" then
         data ← read_bytes template_path;
         paragraphs ← lift (docx_read lib data);
         mret (Some (Py.join blank_line (docx_sections paragraphs [] [])))
       else if String.eqb file_extension ".txt" || String.eqb file_extension ".md" then
         content ← read_text template_path;
         mret (Some content)
       else
         print ("지원되지 않는 파일 형식입니다: " +:+ file_extension);;
         mret None)
      (fun e =>
         print ("파일을 읽는 중 오류가 발생했습니다: " +:+ Py.exn_str e);;
         mret None).

(** *** save_report, lines 91-118 *)

Definition unsupported_format : string :=
  "지원되지 않는 형식입니다. 'md', 'pdf', 또는 'docs'를 사용하세요.".

Definition report_path (filename format : string) : string :=
  path_join "reports" (filename +:+ "." +:+ format).

Definition save_report (lib : libraries) (content filename format : string)
  : M unit :=
  makedirs_exist_ok "reports";;
  let filepath := report_path filename format in
  (if String.eqb format "md" then write_text filepath content
   else if String.eqb format "pdf" then
     data ← lift_exn (pdf_render lib content);
     write_bytes filepath data
   else if String.eqb format "docs" then
     data ← lift_exn (docx_render lib filename content);
     write_bytes filepath data
   else raise (Py.ValueError unsupported_format));;
  print ("보고서가 " +:+ filepath +:+ "로 저장되었습니다.").

(** *** generate_report, lines 26-89 *)

(** [s.split("\n\n")]. *)
Fixpoint split_blank_lines (s : string) : list string :=
  match s with
  | EmptyString => [""]
  | String a r =>
      let keep :=
        match split_blank_lines r with
        | h :: t => String a h :: t
        | [] => [String a ""]
        end in
      match r with
      | String b r' =>
          if Ascii.eqb a LF && Ascii.eqb b LF then "" :: split_blank_lines r'
          else keep
      | EmptyString => keep
      end
  end.

(** The prompt of lines 37-47 after [format]. *)
Definition section_query (project_name team_members topic section : string)
  : string :=
  "
                프로젝트명: "
    +:+ project_name
    +:+ "
                팀원: "
    +:+ team_members
    +:+ "
                주제: "
    +:+ topic
    +:+ "
                
                다음 섹션을 채워주세요:
                
                "
    +:+ section
    +:+ "
                
                위 정보를 바탕으로 이 섹션에 대한 구체적이고 전문적인 내용을 작성해주세요.
                ".

(** The prompt of lines 64-79 after [format]. *)
Definition default_query (project_name team_members topic : string) : string :=
  "
            프로젝트명: "
    +:+ project_name
    +:+ "
            팀원: "
    +:+ team_members
    +:+ "
            주제: "
    +:+ topic
    +:+ "

            위 정보를 바탕으로 다음 구조를 가진 상세한 보고서를 작성해주세요:

            1. 개요
            2. 프로젝트 목표
            3. 팀원 소개 및 역할
            4. 방법론
            5. 주요 발견사항
            6. 결론 및 향후 계획

            각 섹션에 대해 구체적이고 전문적인 내용을 포함시켜 주세요.
            ".

(** The loop of lines 34-57. *)
Fixpoint fill_sections (lib : libraries) (project_name team_members topic : string)
    (sections filled_sections : list string) : M (list string) :=
  match sections with
  | [] => mret filled_sections
  | section :: rest =>
      result ← invoke lib (section_query project_name team_members topic section);
      fill_sections lib project_name team_members topic rest
        (filled_sections ++ [result])%list
  end.

Definition generate_report (lib : libraries)
    (project_name team_members topic : string) (template : option string)
  : M string :=
  if Py.truthy_opt template then
    let sections := split_blank_lines (default "" template) in
    filled_sections ← fill_sections lib project_name team_members topic sections [];
    mret (Py.join blank_line filled_sections)
  else invoke lib (default_query project_name team_members topic).

(** *** main, lines 154-189, and the module body, lines 13-24 *)

(** [while True: v = norm(input(prompt)); if valid(v): break; print(complaint)]
    on the lines still to be read. *)
Fixpoint input_until_on (prompt complaint : string) (norm : string -> string)
    (valid : string -> bool) (lines out : list string)
  : Py.outcome string * list string * list string :=
  match lines with
  | [] => (Py.Raise Py.EOFError, [], (out ++ [prompt])%list)
  | line :: rest =>
      if valid (norm line) then (Py.Return (norm line), rest, (out ++ [prompt])%list)
      else input_until_on prompt complaint norm valid rest
             (out ++ [prompt; complaint])%list
  end.

Definition input_until (prompt complaint : string) (norm : string -> string)
    (valid : string -> bool) : M string := fun st =>
  let '(r, rest, out) :=
    input_until_on prompt complaint norm valid (stdin st) (stdout st) in
  (r, {| fs := fs st; stdin := rest; stdout := out; queries := queries st |}).

Definition one_of (options : list string) (s : string) : bool :=
  existsb (String.eqb s) options.

(** [s.replace(" ", "_")]. *)
Fixpoint spaces_to_underscores (s : string) : string :=
  match s with
  | EmptyString => EmptyString
  | String c r =>
      String (if Ascii.eqb c " " then "_"%char else c) (spaces_to_underscores r)
  end.

Definition main (lib : libraries) : M unit :=
  choice ← input_until "보고서 양식을 선택하세요 (1: 기본 양식, 2: 사용자 정의 양식): "
             "잘못된 선택입니다. 1 또는 2를 입력하세요." (fun s => s) (one_of ["1"; "2"]);
  template ←
    (if String.eqb choice "2" then
       template_path ← input "사용자 정의 양식 파일의 경로를 입력하세요: ";
       template ← load_template lib template_path;
       (if Py.truthy_opt template then mret tt
        else print "양식 로드에 실패했습니다. 기본 양식을 사용합니다.");;
       mret template
     else mret None);
  format ← input_until "보고서 형식을 선택하세요 (md/pdf/docs): "
             "잘못된 형식입니다. 다시 입력하세요: md, pdf 또는 docs를 선택하세요."
             lower (one_of ["md"; "pdf"; "docs"]);
  project_name ← input "프로젝트명을 입력하세요: ";
  team_members ← input "팀원들의 이름을 쉼표로 구분하여 입력하세요: ";
  topic ← input "프로젝트 주제를 입력하세요: ";
  report_content ← generate_report lib project_name team_members topic template;
  let filename := spaces_to_underscores project_name +:+ "_report" in
  save_report lib report_content filename format.

Definition missing_key : string :=
  "OPENAI_API_KEY가 설정되지 않았습니다. .env 파일을 확인해주세요.".

(** Running the file as a script: the check of lines 17-21, then [main].
    [openai_api_key] is [os.getenv("OPENAI_API_KEY")]. *)
Definition script (lib : libraries) (openai_api_key : option string) : M unit :=
  if Py.truthy_opt openai_api_key then main lib
  else raise (Py.ValueError missing_key).

End ReportWriter.

(** * What a run shows, and sample data *)

(** ** Observations on the video pipeline *)
Module Observe.
Import YTPI.

Section WithServices.
Variable sv : services.

(** What one video contributes to [all_transcripts], read off the services
    alone: its text when both the download and the transcription return and
    the text is not empty. *)
Definition item_transcript (url : string) : option string :=
  match fetch sv url with
  | inl audio =>
      match whisper sv (Some audio) with
      | inl text => if Py.truthy text then Some text else None
      | inr _ => None
      end
  | inr _ => None
  end.

(** The calls one video causes. *)
Definition item_calls (url : string) : list call :=
  Download url ::
  match fetch sv url with
  | inl _ => [Transcribe (temp_audio_path url); Remove (temp_audio_path url)]
  | inr _ => []
  end.

(** The calls after the loop. *)
Definition batch_tail (key : option string) (selected_videos : list string)
  : list call :=
  match omap item_transcript selected_videos with
  | [] => []
  | ts =>
      Synthesize ts ::
      match complete sv key (idea_prompt ts) with
      | inl idea =>
          if Py.truthy idea
          then [Persist (Py.join ", " selected_videos)
                  (Py.join (String "010" "") ts) idea]
          else []
      | inr _ => []
      end
  end.

(** The calls a press of the button adds to the log. *)
Definition new_calls (key : option string) (selected_videos : list string)
    (w : world) : list call :=
  drop (length (calls w))
       (calls (generate_from_selection sv key selected_videos w)).

(** A stage of the item fails: the download, or the transcription of what
    was downloaded. *)
Definition download_fails (url : string) : Prop :=
  exists e, fetch sv url = inr e.

Definition transcription_fails (url : string) : Prop :=
  exists audio e, fetch sv url = inl audio /\ whisper sv (Some audio) = inr e.

End WithServices.

(** The next call is a download or the synthesis of the batch. *)
Definition next_item_or_batch (tr : list call) : Prop :=
  forall c, head tr = Some c ->
            (exists v, c = Download v) \/ (exists ts, c = Synthesize ts).

(** Two runs agree on a video: the download gives the same, and so does the
    transcription of what was downloaded. *)
Definition same_service_for (sv sv' : services) (v : string) : Prop :=
  fetch sv' v = fetch sv v
  /\ forall audio, fetch sv v = inl audio ->
                   whisper sv' (Some audio) = whisper sv (Some audio).

(** Two decimal digits, tens first. *)
Definition digit (d : Z) : ascii := ascii_of_nat (48 + Z.to_nat d).

Definition two_digits (n : Z) : string :=
  String (digit (n / 10)) (String (digit (n mod 10)) "").

End Observe.

(** ** Observations on the report writer *)
Module ObserveReport.
Import ReportWriter.


(** [os.makedirs] can do its work: no regular file is in the way. *)
Definition reports_dir_available (f : gmap string node) : Prop :=
  forall a d, f !! "reports" <> Some (File a d).

(** The extension [load_template] looks at. *)
Definition template_ext (template_path : string) : string :=
  lower (splitext_ext template_path).

Definition supported_ext (ext : string) : Prop :=
  ext = ".docx" \/ ext = ".txt" \/ ext = ".md".

(** The report can be written: the directory can be made and, once it is
    there, the file can be opened for writing. *)
Definition can_save (f : gmap string node) (filename format : string) : Prop :=
  reports_dir_available f
  /\ writable (<["reports" := Dir]> f) (report_path filename format) = true.

End ObserveReport.

(** ** A sample session of the video page *)
Module Demo.
Import YTPI.

Definition blocked : string := video_url "blocked0001".
Definition garbled : string := video_url "garbled0001".
Definition talk_a : string := video_url "dQw4w9WgXcQ".
Definition talk_b : string := video_url "9bZkp7q19f0".

Definition hit (id name : string) : video :=
  {| video_id := id; title := inl name; author := inl "someone" |}.

Definition hits : list video :=
  [hit "dQw4w9WgXcQ" "first"; hit "9bZkp7q19f0" "second"; hit "garbled0001" "third"].

(** Every search finds [hits], the metadata service is down; downloads work
    except for [blocked]; transcription works except for the audio of
    [garbled]; the completion needs a credential. *)
Definition services_of (blocked_too : bool) : services :=
  {| search := fun _ => inl hits;
     extract_info := fun _ => inr "unavailable";
     fetch := fun url =>
       if String.eqb url blocked && blocked_too
       then inr "HTTP Error 403: Forbidden"
       else inl ("mp3 of " +:+ url);
     whisper := fun audio =>
       match audio with
       | Some a =>
           if String.eqb a ("mp3 of " +:+ garbled)
           then inr "Failed to load audio"
           else inl ("text of " +:+ a)
       | None => inr "No such file or directory"
       end;
     complete := fun key prompt =>
       match key with
       | Some _ => inl "an idea"
       | None => inr "The api_key client option must be set"
       end;
     insert := fun _ _ _ => None |}.

Definition sv : services := services_of true.
Definition sv_unblocked : services := services_of false.

Definition empty_world : world :=
  {| files := ∅; ideas := []; shown := []; calls := [] |}.

End Demo.

(** ** A text template through [load_template] and [save_report] *)
Module ReportDemo.
Import ReportWriter.

Definition lib : libraries :=
  {| chain_invoke := fun query => inl "a paragraph";
     docx_read := fun data => inr "File is not a zip file";
     pdf_render := fun content => inl ("%PDF " +:+ content);
     docx_render := fun filename content => inl ("PK " +:+ content) |}.

(** A template saved with Windows line ends. *)
Definition crlf_template : string :=
  "# Title" +:+ String CR (String LF "body").

(** A template of three lines, one of them empty, each ended by a line
    feed. *)
Definition lf_template : string :=
  "# 제목" +:+ blank_line +:+ "본문" +:+ String LF "".

Definition state_with (path data : string) (lines : list string) : state :=
  {| fs := {[ path := File true data ]}; stdin := lines; stdout := []; queries := [] |}.

(** A document of two headings with their paragraphs, after a line that
    comes before the first heading. *)
Definition outline : list paragraph :=
  [ {| style_name := "Normal"; text := "Draft" |};
    {| style_name := "Heading 1"; text := "Intro" |};
    {| style_name := "Normal"; text := "about" |};
    {| style_name := "Normal"; text := "scope" |};
    {| style_name := "Heading 2"; text := "Goals" |};
    {| style_name := "List Paragraph"; text := "one" |} ].

(** The text of [outline], section by section. *)
Definition outline_text : string :=
  "Draft" +:+ blank_line
  +:+ "Intro" +:+ String LF "about" +:+ String LF "scope" +:+ blank_line
  +:+ "Goals" +:+ String LF "one".

(** A reader that opens every file as [outline]. *)
Definition docx_lib : libraries :=
  {| chain_invoke := chain_invoke lib;
     docx_read := fun data => inl outline;
     pdf_render := pdf_render lib;
     docx_render := docx_render lib |}.

End ReportDemo.

(** ** The two columns of the video page *)
Module Page.
Import YTPI.

(** The URLs of the rows whose box is checked, lines 191-203; [checked idx]
    is the state of the box with key [video_idx], [idx] the row label. *)
Fixpoint select_checked (rows : list video_info) (checked : nat -> bool)
    (idx : nat) : list string :=
  match rows with
  | [] => []
  | video :: rest =>
      if checked idx then row_url video :: select_checked rest checked (S idx)
      else select_checked rest checked (S idx)
  end.

(** How a run of the columns ends: the page is drawn, or the name
    [selected_videos] is read before any assignment, or an exception of the
    search comes through. *)
Inductive page_end :=
| Drawn
| UnboundSelectedVideos
| Failed (e : Py.exn).

(** Lines 181-246 of [main]: the search column, which binds
    [selected_videos] only under a non-empty table, and the button column.
    [search_keyword] is the content of the text box, [button] tells whether
    this run was started by the button.  What the rows of the table draw on
    the page (image, title, author, length, views) is not recorded. *)
Definition columns (sv : services) (key : option string)
    (search_keyword : string) (checked : nat -> bool) (button : bool)
    (w : world) : page_end * world :=
  let '(bound, w) :=
    if Py.truthy search_keyword then
      match search_videos sv search_keyword 5 w with
      | (Py.Return [], w) => (inl None, w)
      | (Py.Return videos_df, w) => (inl (Some (select_checked videos_df checked 0)), w)
      | (Py.Raise e, w) => (inr e, w)
      end
    else (inl None, w) in
  match bound with
  | inr e => (Failed e, w)
  | inl selected_videos =>
      if button then
        match selected_videos with
        | None => (UnboundSelectedVideos, w)
        | Some selected_videos =>
            (Drawn, generate_from_selection sv key selected_videos w)
        end
      else (Drawn, w)
  end.

End Page.

(** ** Further observations *)
Module ObserveMore.
Import YTPI.

(** The error box one video of the loop causes, if any. *)
Definition failure_message (sv : services) (url : string) : option (level * string) :=
  match fetch sv url with
  | inr e => Some (StError, "오디오 다운로드 중 오류 발생: " +:+ e)
  | inl audio =>
      match whisper sv (Some audio) with
      | inr e => Some (StError, "음성 변환 중 오류 발생: " +:+ e)
      | inl _ => None
      end
  end.

(** The URL of the row made for a search hit. *)
Definition hit_url (v : video) : string := video_url (video_id v).

(** A search hit can be turned into a row: the metadata service answers, or
    both properties of the hit can be read. *)
Definition readable (sv : services) (v : video) : Prop :=
  (exists result, extract_info sv (video_url (video_id v)) = inl result)
  \/ (exists t a, title v = inl t /\ author v = inl a).

End ObserveMore.

(** ** Further observations on the report writer *)
Module ObserveReportMore.
Import ReportWriter.

(** How many paragraphs have a heading style. *)
Fixpoint count_headings (paragraphs : list paragraph) : nat :=
  match paragraphs with
  | [] => O
  | p :: rest =>
      ((if String.prefix "Heading" (style_name p) then 1 else 0)
       + count_headings rest)%nat
  end.

Definition is_heading (p : paragraph) : bool :=
  String.prefix "Heading" (style_name p).

(** The sections of a template, told without the loop of [load_template]
    and from the end of the document: a paragraph followed by a heading, or
    by nothing, ends a section; any other paragraph belongs to the section
    of the paragraph after it.  So a section starts at the first paragraph
    and at each heading, and runs up to the next heading. *)
Definition open_section (lines : list string) (rest : list paragraph)
    (later : list (list string)) : list (list string) :=
  match rest with
  | [] => [lines]
  | q :: _ =>
      if is_heading q then lines :: later
      else match later with
           | sec :: secs => (lines ++ sec)%list :: secs
           | [] => [lines]
           end
  end.

Fixpoint template_sections (paragraphs : list paragraph) : list (list string) :=
  match paragraphs with
  | [] => []
  | p :: rest => open_section [text p] rest (template_sections rest)
  end.

(** A document cut into sections by hand: no piece is empty, every piece
    but the first starts with a heading, and no piece has a heading after
    its first paragraph. *)
Definition is_section (first : bool) (piece : list paragraph) : bool :=
  match piece with
  | [] => false
  | p :: body =>
      (first || is_heading p) && forallb (fun q => negb (is_heading q)) body
  end.

Definition well_cut (pieces : list (list paragraph)) : bool :=
  match pieces with
  | [] => true
  | piece :: more => is_section true piece && forallb (is_section false) more
  end.

(** The text [load_template] is to return for the sections: the lines of
    a section joined by line feeds, the sections by blank lines. *)
Definition sections_text (sections : list (list string)) : string :=
  Py.join blank_line (map (Py.join (String LF "")) sections).

Fixpoint ascii_only (s : string) : bool :=
  match s with
  | EmptyString => true
  | String c r => (nat_of_ascii c <? 128)%nat && ascii_only r
  end.

End ObserveReportMore.

(** * Properties *)

(** ** Paths and durations on samples *)
Example stem_watch :
  YTPI.path_stem (YTPI.video_url "dQw4w9WgXcQ") = "watch?v=dQw4w9WgXcQ".
Proof. reflexivity. Qed.

Example stem_suffix : YTPI.path_stem "https://a.example/dir/clip.tar.gz" = "clip.tar".
Proof. reflexivity. Qed.

Example stem_hidden : YTPI.path_stem "/home/u/.bashrc" = ".bashrc".
Proof. reflexivity. Qed.

Example stem_trailing : YTPI.path_stem "a/b./" = "b.".
Proof. reflexivity. Qed.

Example format_duration_125 : YTPI.format_duration 125 = "2:05".
Proof. reflexivity. Qed.

Example format_duration_3725 : YTPI.format_duration 3725 = "1:02:05".
Proof. reflexivity. Qed.

Example format_duration_neg : YTPI.format_duration (-5) = "59:55".
Proof. reflexivity. Qed.


(** ** Durations *)
Section Durations.
Import Observe ObserveReport.
Import YTPI.

Lemma contains_app (c : ascii) (a b : string) :
  Py.contains c (a +:+ b) = Py.contains c a || Py.contains c b.
Proof.
  induction a as [|x a IH]; simpl; [reflexivity|].
  rewrite IH. apply orb_assoc.
Qed.

Lemma format_02d_below_100 (n : Z) :
  0 <= n < 100 -> Py.format_02d n = two_digits n.
Proof.
  intros Hn.
  assert (Hall : forallb
            (fun k => String.eqb (Py.format_02d (Z.of_nat k)) (two_digits (Z.of_nat k)))
            (seq 0 100) = true) by (vm_compute; reflexivity).
  rewrite forallb_forall in Hall.
  specialize (Hall (Z.to_nat n)).
  rewrite Z2Nat.id in Hall by lia.
  apply String.eqb_eq, Hall, in_seq. lia.
Qed.

Lemma clock_has_colon (a b : string) : a +:+ ":" +:+ b <> no_duration.
Proof.
  intros E.
  assert (H : Py.contains ":" (a +:+ ":" +:+ b) = Py.contains ":" no_duration)
    by (rewrite E; reflexivity).
  rewrite contains_app in H. simpl in H.
  rewrite orb_true_r in H. vm_compute in H. discriminate.
Qed.

(** C10: [format_duration] gives the placeholder exactly at 0, [M:SS] below
    an hour with [M = seconds // 60] and [SS = seconds % 60] on two digits,
    and [H:MM:SS] from an hour on with [H = seconds // 3600],
    [MM = (seconds % 3600) // 60] and [SS = seconds % 60], the last two on two
    digits. *)
Theorem format_duration_shape (seconds : Z) :
  (format_duration seconds = no_duration <-> seconds = 0)
  /\ (0 < seconds < 3600 ->
      format_duration seconds
      = Py.str (seconds / 60) +:+ ":" +:+ two_digits (seconds mod 60))
  /\ (3600 <= seconds ->
      format_duration seconds
      = Py.str (seconds / 3600) +:+ ":" +:+ two_digits (seconds mod 3600 / 60)
          +:+ ":" +:+ two_digits (seconds mod 60)).
Proof.
  assert (Hs : 0 <= seconds mod 60 < 100)
    by (pose proof (Z.mod_pos_bound seconds 60); lia).
  assert (Hm : 0 <= seconds mod 3600 / 60 < 100).
  { pose proof (Z.mod_pos_bound seconds 3600 ltac:(lia)) as Hb.
    split; [apply Z.div_pos; lia|].
    apply Z.div_lt_upper_bound; lia. }
  unfold format_duration.
  repeat split.
  - destruct (Z.eqb_spec seconds 0) as [|Hne]; [tauto|].
    intros E. exfalso. revert E.
    destruct (seconds / 3600 >? 0); apply clock_has_colon.
  - intros ->. reflexivity.
  - intros [Hlo Hhi].
    destruct (Z.eqb_spec seconds 0) as [|_]; [lia|].
    rewrite (Z.div_small seconds 3600), (Z.mod_small seconds 3600) by lia.
    change (0 >? 0) with false. cbv iota.
    rewrite (format_02d_below_100 (seconds mod 60)) by assumption. reflexivity.
  - intros Hge.
    destruct (Z.eqb_spec seconds 0) as [|_]; [lia|].
    assert (Hh : 1 <= seconds / 3600) by (apply Z.div_le_lower_bound; lia).
    destruct (Z.gtb_spec (seconds / 3600) 0) as [_|]; [|lia].
    rewrite !format_02d_below_100 by assumption. reflexivity.
Qed.

(** The three regimes at 0, at 2 min 5 s and at 1 h 2 min 5 s. *)
Lemma format_duration_shape_witness :
  (format_duration 0 = no_duration <-> 0 = 0)
  /\ format_duration 125 = "2:05"
  /\ format_duration 3725 = "1:02:05".
Proof.
  split; [apply (format_duration_shape 0)|].
  split.
  - apply (proj1 (proj2 (format_duration_shape 125))). lia.
  - apply (proj2 (proj2 (format_duration_shape 3725))). lia.
Defined.

End Durations.

(** ** Temporary audio files *)
Section TempFiles.
Import Observe ObserveReport.
Import YTPI.

Lemma list_ascii_app (a b : string) :
  list_ascii_of_string (a +:+ b)
  = (list_ascii_of_string a ++ list_ascii_of_string b)%list.
Proof. induction a as [|x a IH]; simpl; [reflexivity|]. now rewrite IH. Qed.

Lemma append_inv_tail (a b t : string) : a +:+ t = b +:+ t -> a = b.
Proof.
  intros E. apply (f_equal list_ascii_of_string) in E.
  rewrite !list_ascii_app in E. apply app_inv_tail in E.
  apply (f_equal string_of_list_ascii) in E.
  now rewrite !string_of_list_ascii_of_string in E.
Qed.

Lemma append_inv_head (h a b : string) : h +:+ a = h +:+ b -> a = b.
Proof. induction h as [|x h IH]; simpl; intros E; [assumption|]. injection E. exact IH. Qed.

(** Two URLs share their temporary file exactly when they share their stem. *)
Lemma temp_audio_path_eq (u v : string) :
  temp_audio_path u = temp_audio_path v <-> path_stem u = path_stem v.
Proof.
  unfold temp_audio_path. split; [|now intros ->].
  intros E. apply append_inv_head in E. now apply append_inv_tail in E.
Qed.

Lemma split_without_sep (c : ascii) (s : string) :
  Py.contains c s = false -> split c s = [s].
Proof.
  induction s as [|a s IH]; simpl; [reflexivity|].
  intros H. apply orb_false_iff in H as [Ha Hs].
  rewrite Ha, (IH Hs). reflexivity.
Qed.

Lemma rfind_without (c : ascii) (s : string) :
  Py.contains c s = false -> Py.rfind c s = None.
Proof.
  induction s as [|a s IH]; simpl; [reflexivity|].
  intros H. apply orb_false_iff in H as [Ha Hs].
  now rewrite (IH Hs), Ha.
Qed.

Lemma split_not_nil (c : ascii) (s : string) : split c s <> [].
Proof.
  destruct s as [|a s]; simpl; [discriminate|].
  destruct (Ascii.eqb a c); [discriminate|].
  destruct (split c s); discriminate.
Qed.

(** Text without the separator only extends the last component. *)
Lemma split_app_without_sep (c : ascii) (p s : string) :
  Py.contains c s = false ->
  split c (p +:+ s)
  = (removelast (split c p) ++ [List.last (split c p) "" +:+ s])%list.
Proof.
  intros Hs. induction p as [|a p IH].
  - simpl. now apply split_without_sep.
  - pose proof (split_not_nil c p) as Hne.
    change (String a p +:+ s) with (String a (p +:+ s)).
    change (split c (String a (p +:+ s)))
      with (if Ascii.eqb a c then "" :: split c (p +:+ s)
            else match split c (p +:+ s) with
                 | h :: t => String a h :: t
                 | [] => [String a ""]
                 end).
    rewrite IH. cbn [split].
    destruct (split c p) as [|h [|h' t]]; [congruence| |];
      destruct (Ascii.eqb a c); reflexivity.
Qed.

Lemma rfind_app_without (c : ascii) (p s : string) :
  Py.contains c s = false -> Py.rfind c (p +:+ s) = Py.rfind c p.
Proof.
  intros Hs. induction p as [|a p IH]; simpl.
  - now apply rfind_without.
  - now rewrite IH.
Qed.

(** The stem of a watch URL whose id has neither a slash nor a dot. *)
Lemma path_stem_video_url (video_id : string) :
  Py.contains "/" video_id = false ->
  Py.contains "." video_id = false ->
  path_stem (video_url video_id) = "watch?v=" +:+ video_id.
Proof.
  intros Hslash Hdot.
  assert (Hname : path_name (video_url video_id) = "watch?v=" +:+ video_id).
  { unfold path_name, video_url.
    rewrite (split_app_without_sep _ _ _ Hslash).
    change (split "/" "https://youtube.com/watch?v=")
      with ["https:"; ""; "youtube.com"; "watch?v="].
    cbn [removelast List.last app List.filter is_part Py.truthy String.eqb
         Ascii.eqb Bool.eqb negb andb].
    destruct (is_part ("watch?v=" +:+ video_id)) eqn:E; [reflexivity|].
    discriminate E. }
  unfold path_stem. rewrite Hname.
  rewrite (rfind_app_without _ _ _ Hdot). reflexivity.
Qed.

(** One turn of the loop touches no file but the temporary file of its URL. *)
Lemma process_video_frame (sv : services) (st : list string * world)
    (url path : string) :
  path <> temp_audio_path url ->
  files (process_video sv st url).2 !! path = files st.2 !! path.
Proof.
  intros Hne. destruct st as [ts w]. unfold process_video, download_audio.
  destruct (fetch sv url) as [audio|e]; [|reflexivity].
  destruct (Py.truthy (temp_audio_path url)); cbn [snd].
  - unfold transcribe_audio.
    destruct (whisper sv _) as [t|e]; unfold remove_temp;
      match goal with |- context [files ?w !! temp_audio_path url] =>
        destruct (files w !! temp_audio_path url) eqn:E end;
      cbn in *;
      rewrite ?lookup_delete_ne, ?lookup_insert_ne by congruence; reflexivity.
  - cbn. now rewrite lookup_insert_ne by congruence.
Qed.

(** C8: two distinct watch URLs, as line 33 builds them from video ids
    (pytube's ids are made of letters, digits, [_] and [-]: they hold
    neither ['/'] nor ['.']), get distinct temporary audio files, and
    processing one of them leaves the temporary file of the other as it
    was. *)
Theorem temp_audio_path_distinct (id1 id2 : string) :
  Py.contains "/" id1 = false -> Py.contains "." id1 = false ->
  Py.contains "/" id2 = false -> Py.contains "." id2 = false ->
  video_url id1 <> video_url id2 ->
  temp_audio_path (video_url id1) <> temp_audio_path (video_url id2)
  /\ forall (sv : services) (st : list string * world),
       files (process_video sv st (video_url id1)).2
         !! temp_audio_path (video_url id2)
       = files st.2 !! temp_audio_path (video_url id2).
Proof.
  intros Hs1 Hd1 Hs2 Hd2 Hne.
  assert (Hpaths : temp_audio_path (video_url id1) <> temp_audio_path (video_url id2)).
  { rewrite temp_audio_path_eq, !path_stem_video_url by assumption.
    intros E. apply append_inv_head in E. now subst. }
  split; [exact Hpaths|].
  intros sv st. apply process_video_frame. congruence.
Qed.

Lemma temp_audio_path_distinct_witness :
  temp_audio_path (video_url "dQw4w9WgXcQ") <> temp_audio_path (video_url "9bZkp7q19f0")
  /\ forall (sv : services) (st : list string * world),
       files (process_video sv st (video_url "dQw4w9WgXcQ")).2
         !! temp_audio_path (video_url "9bZkp7q19f0")
       = files st.2 !! temp_audio_path (video_url "9bZkp7q19f0").
Proof.
  apply (temp_audio_path_distinct "dQw4w9WgXcQ" "9bZkp7q19f0");
    try reflexivity; discriminate.
Defined.

End TempFiles.

(** ** The video pipeline *)
Section Pipeline.
Import Observe ObserveReport.
Import YTPI.

Variable sv : services.

Lemma temp_audio_path_truthy (url : string) : Py.truthy (temp_audio_path url) = true.
Proof. reflexivity. Qed.

Lemma process_video_result (ts : list string) (w : world) (url : string) :
  (process_video sv (ts, w) url).1 = (ts ++ option_list (item_transcript sv url))%list.
Proof.
  unfold process_video, download_audio, item_transcript.
  destruct (fetch sv url) as [audio|e]; [|cbn; now rewrite app_nil_r].
  rewrite temp_audio_path_truthy. unfold transcribe_audio.
  cbn [files log set_files]. rewrite lookup_insert_eq.
  destruct (whisper sv (Some audio)) as [t|e]; cbn.
  - destruct (Py.truthy t); cbn; [reflexivity|now rewrite app_nil_r].
  - now rewrite app_nil_r.
Qed.

Lemma process_video_calls (ts : list string) (w : world) (url : string) :
  calls (process_video sv (ts, w) url).2 = (calls w ++ item_calls sv url)%list.
Proof.
  unfold process_video, download_audio, item_calls.
  destruct (fetch sv url) as [audio|e]; [|reflexivity].
  rewrite temp_audio_path_truthy. unfold transcribe_audio.
  cbn [files log set_files]. rewrite lookup_insert_eq.
  destruct (whisper sv (Some audio)) as [t|e]; unfold remove_temp;
    cbn [files log set_files show]; rewrite lookup_insert_eq; cbn;
    rewrite <- !app_assoc; reflexivity.
Qed.

Lemma process_loop (urls : list string) (ts : list string) (w : world) :
  (fold_left (process_video sv) urls (ts, w)).1
  = (ts ++ omap (item_transcript sv) urls)%list
  /\ calls (fold_left (process_video sv) urls (ts, w)).2
     = (calls w ++ flat_map (item_calls sv) urls)%list.
Proof.
  revert ts w. induction urls as [|u urls IH]; intros ts w; cbn [fold_left].
  - cbn. now rewrite !app_nil_r.
  - destruct (process_video sv (ts, w) u) as [ts' w'] eqn:E.
    destruct (IH ts' w') as [IH1 IH2]. rewrite IH1, IH2.
    pose proof (process_video_result ts w u) as H1.
    pose proof (process_video_calls ts w u) as H2.
    rewrite E in H1, H2. cbn [fst snd] in H1, H2. rewrite H1, H2.
    cbn [flat_map]. rewrite <- !app_assoc. split; [|reflexivity].
    f_equal. cbn [omap list_omap]. destruct (item_transcript sv u); reflexivity.
Qed.

(** The transcripts the loop collects do not depend on the world it starts
    in. *)
Lemma process_videos_result (urls : list string) (w : world) :
  (process_videos sv urls w).1 = omap (item_transcript sv) urls.
Proof. unfold process_videos. now rewrite (proj1 (process_loop urls [] w)). Qed.

Lemma process_videos_calls (urls : list string) (w : world) :
  calls (process_videos sv urls w).2 = (calls w ++ flat_map (item_calls sv) urls)%list.
Proof. unfold process_videos. apply process_loop. Qed.

Lemma calls_show_all (ts : list string) (w : world) :
  calls (fold_left (fun w t => show StWrite t w) ts w) = calls w.
Proof. revert w. induction ts as [|t ts IH]; intros w; cbn; [reflexivity|]. now rewrite IH. Qed.

Lemma handler_calls (key : option string) (selected_videos : list string) (w : world) :
  calls (generate_from_selection sv key selected_videos w)
  = (calls w ++ flat_map (item_calls sv) selected_videos
       ++ batch_tail sv key selected_videos)%list.
Proof.
  unfold generate_from_selection, batch_tail.
  destruct selected_videos as [|u0 rest]; [cbn; now rewrite app_nil_r|].
  set (sel := u0 :: rest).
  pose proof (process_videos_result sel w) as Hr.
  pose proof (process_videos_calls sel w) as Hc.
  destruct (process_videos sv sel w) as [ts w1]. cbn [fst snd] in Hr, Hc.
  rewrite <- Hr.
  destruct ts as [|t ts']; [cbn; now rewrite Hc, app_nil_r|].
  unfold generate_idea.
  destruct (complete sv key (idea_prompt (t :: ts'))) as [idea|e].
  - destruct (Py.truthy idea);
      [unfold save_idea; destruct (insert sv _ _ _)|];
      cbn [calls show log add_idea];
      rewrite calls_show_all, Hc, <- ?app_assoc; reflexivity.
  - cbn [calls show log Py.truthy].
    rewrite calls_show_all, Hc, <- app_assoc. reflexivity.
Qed.

Lemma new_calls_eq (key : option string) (selected_videos : list string) (w : world) :
  new_calls sv key selected_videos w
  = (flat_map (item_calls sv) selected_videos ++ batch_tail sv key selected_videos)%list.
Proof. unfold new_calls. rewrite handler_calls. apply drop_app_length. Qed.

End Pipeline.

(** ** Isolation and order of the stages *)
Section Stages.
Import Observe ObserveReport.
Import YTPI.

Variable sv : services.

Lemma item_transcript_inv (url t : string) :
  item_transcript sv url = Some t ->
  exists audio, fetch sv url = inl audio /\ whisper sv (Some audio) = inl t
                /\ Py.truthy t = true.
Proof.
  unfold item_transcript. destruct (fetch sv url) as [audio|]; [|discriminate].
  destruct (whisper sv (Some audio)) as [x|] eqn:Hw; [|discriminate].
  destruct (Py.truthy x) eqn:E; [|discriminate].
  intros [= <-]. exists audio. auto.
Qed.

Lemma failed_item_transcript (url : string) :
  download_fails sv url \/ transcription_fails sv url ->
  item_transcript sv url = None.
Proof.
  unfold item_transcript. intros [[e He]|(audio & e & Ha & He)].
  - now rewrite He.
  - now rewrite Ha, He.
Qed.

Lemma download_in_item_calls (url : string) : In (Download url) (item_calls sv url).
Proof. now left. Qed.

(** A [Transcribe] in the log of the loop comes right after the [Download]
    of the same video, and that download returned. *)
Lemma transcribe_after_download (urls : list string) (tail : list call) :
  (forall p, ~ In (Transcribe p) tail) ->
  forall pre p post,
    (flat_map (item_calls sv) urls ++ tail)%list = (pre ++ Transcribe p :: post)%list ->
    exists pre' u audio,
      pre = (pre' ++ [Download u])%list /\ In u urls
      /\ fetch sv u = inl audio /\ p = temp_audio_path u.
Proof.
  intros Htail. induction urls as [|u urls IH]; intros pre p post E.
  - exfalso. apply (Htail p). cbn in E. rewrite E. apply in_elt.
  - cbn [flat_map] in E. rewrite <- app_assoc in E. unfold item_calls at 1 in E.
    destruct (fetch sv u) as [audio|e] eqn:Hf.
    + destruct pre as [|c0 [|c1 [|c2 pre3]]]; cbn in E; try discriminate.
      * injection E as <- <- _. exists [], u, audio. cbn; auto.
      * injection E as <- <- <- E.
        destruct (IH _ _ _ E) as (pre' & v & a & -> & Hin & Hv & ->).
        exists (Download u :: Transcribe (temp_audio_path u)
                  :: Remove (temp_audio_path u) :: pre'), v, a.
        cbn; auto.
    + destruct pre as [|c0 pre1]; cbn in E; [discriminate|].
      injection E as <- E.
      destruct (IH _ _ _ E) as (pre' & v & a & -> & Hin & Hv & ->).
      exists (Download u :: pre'), v, a. cbn; auto.
Qed.

Lemma loop_starts_with_download (urls : list string) (tail : list call) :
  next_item_or_batch tail ->
  next_item_or_batch (flat_map (item_calls sv) urls ++ tail).
Proof.
  intros Ht. destruct urls as [|u urls]; [exact Ht|].
  intros c Hc. cbn in Hc. injection Hc as <-. eauto.
Qed.

(** After a failed [Download] the loop goes on with the next video. *)
Lemma failed_download_ends_item (urls : list string) (tail : list call) :
  (forall v, ~ In (Download v) tail) ->
  next_item_or_batch tail ->
  forall pre u e post,
    (flat_map (item_calls sv) urls ++ tail)%list = (pre ++ Download u :: post)%list ->
    fetch sv u = inr e ->
    next_item_or_batch post.
Proof.
  intros Htail Hstart. induction urls as [|u0 urls IH]; intros pre u e post E Hu.
  - exfalso. apply (Htail u). cbn in E. rewrite E. apply in_elt.
  - cbn [flat_map] in E. rewrite <- app_assoc in E. unfold item_calls at 1 in E.
    destruct (fetch sv u0) as [audio|e0] eqn:Hf.
    + destruct pre as [|c0 [|c1 [|c2 pre3]]]; cbn in E; try discriminate.
      * injection E as Hu0 _. subst. congruence.
      * injection E as _ _ _ E. eapply IH; eassumption.
    + destruct pre as [|c0 pre1]; cbn in E.
      * injection E as _ <-. now apply loop_starts_with_download.
      * injection E as _ E. eapply IH; eassumption.
Qed.

Lemma synthesize_in_loop (urls : list string) (tail : list call) (ts : list string) :
  In (Synthesize ts) (flat_map (item_calls sv) urls ++ tail) ->
  In (Synthesize ts) tail.
Proof.
  rewrite in_app_iff, in_flat_map. intros [(u & _ & H)|H]; [|exact H].
  unfold item_calls in H. destruct (fetch sv u); cbn in H;
    intuition discriminate.
Qed.

Lemma persist_in_loop (urls : list string) (tail : list call) (a b c : string) :
  In (Persist a b c) (flat_map (item_calls sv) urls ++ tail) ->
  In (Persist a b c) tail.
Proof.
  rewrite in_app_iff, in_flat_map. intros [(u & _ & H)|H]; [|exact H].
  unfold item_calls in H. destruct (fetch sv u); cbn in H;
    intuition discriminate.
Qed.

Lemma batch_tail_cases (key : option string) (urls : list string) (c : call) :
  In c (batch_tail sv key urls) ->
  c = Synthesize (omap (item_transcript sv) urls)
  \/ exists idea,
       c = Persist (Py.join ", " urls)
             (Py.join (String "010" "") (omap (item_transcript sv) urls)) idea.
Proof.
  unfold batch_tail. destruct (omap (item_transcript sv) urls) as [|t ts]; [intros []|].
  intros [<-|H]; [now left|].
  destruct (complete sv key _) as [idea|]; [|destruct H].
  destruct (Py.truthy idea); [|destruct H].
  destruct H as [<-|[]]. right. eauto.
Qed.

Lemma batch_tail_start (key : option string) (urls : list string) :
  next_item_or_batch (batch_tail sv key urls).
Proof.
  unfold batch_tail. destruct (omap (item_transcript sv) urls) as [|t ts];
    intros c Hc; [discriminate|].
  injection Hc as <-. eauto.
Qed.

End Stages.

Section StageClaims.
Import Observe ObserveReport.
Import YTPI.
Local Open Scope list_scope.

Lemma item_transcript_agree (sv sv' : services) (urls : list string) :
  (forall v, In v urls -> same_service_for sv sv' v) ->
  omap (item_transcript sv') urls = omap (item_transcript sv) urls.
Proof.
  induction urls as [|u urls IH]; intros H; [reflexivity|].
  cbn [omap list_omap]. fold (omap (item_transcript sv') urls).
  fold (omap (item_transcript sv) urls).
  rewrite IH by (intros v Hv; apply H; now right).
  destruct (H u (or_introl eq_refl)) as [Hf Hw].
  unfold item_transcript. rewrite Hf.
  destruct (fetch sv u) as [audio|]; [|reflexivity].
  now rewrite (Hw audio eq_refl).
Qed.

(** C1: when a video of the batch fails at the download or at the
    transcription, every other video is still downloaded, the transcripts
    collected are those of the other videos processed on their own, and in a
    run where the services treat the other videos alike, whatever happens to
    this one, the others contribute the same transcripts at the same places. *)
Theorem failure_isolation (sv sv' : services) (key : option string)
    (before after : list string) (url : string) (w w' : world) :
  download_fails sv url \/ transcription_fails sv url ->
  (forall v, In v (before ++ after) -> same_service_for sv sv' v) ->
  (forall v, In v (before ++ after) ->
             In (Download v) (new_calls sv key (before ++ url :: after) w))
  /\ (process_videos sv (before ++ url :: after) w).1
     = ((process_videos sv before w).1 ++ (process_videos sv after w).1)%list
  /\ (process_videos sv' (before ++ url :: after) w').1
     = ((process_videos sv before w).1 ++ (process_videos sv' [url] w').1
          ++ (process_videos sv after w).1)%list.
Proof.
  intros Hfail Hsame. repeat split.
  - intros v Hv. rewrite new_calls_eq, in_app_iff, in_flat_map. left.
    exists v. split; [|apply download_in_item_calls].
    rewrite in_app_iff in *. cbn. tauto.
  - rewrite !process_videos_result, omap_app. cbn [omap list_omap].
    now rewrite (failed_item_transcript sv url Hfail).
  - rewrite !process_videos_result.
    change (before ++ url :: after)%list with (before ++ [url] ++ after)%list.
    rewrite !omap_app. f_equal; [|f_equal];
      apply item_transcript_agree; intros v Hv; apply Hsame, in_app_iff; tauto.
Qed.

(** C2: in the calls of one press of the button, a transcription comes right
    after the download of the same selected video and only when that download
    returned a file; after a download that failed the next call, if any, is
    the download of the next video or the synthesis of the batch; and every
    transcript the synthesis receives is the text the transcription returned
    for a selected video whose download returned. *)
Theorem stages_in_order (sv : services) (key : option string)
    (selected_videos : list string) (w : world) :
  (forall pre p post,
      new_calls sv key selected_videos w = (pre ++ Transcribe p :: post)%list ->
      exists pre' u audio,
        pre = (pre' ++ [Download u])%list /\ In u selected_videos
        /\ fetch sv u = inl audio /\ p = temp_audio_path u)
  /\ (forall pre u e post,
        new_calls sv key selected_videos w = (pre ++ Download u :: post)%list ->
        fetch sv u = inr e ->
        forall c, head post = Some c ->
                  (exists v, c = Download v) \/ (exists ts, c = Synthesize ts))
  /\ (forall ts t,
        In (Synthesize ts) (new_calls sv key selected_videos w) -> In t ts ->
        exists u audio,
          In u selected_videos /\ fetch sv u = inl audio
          /\ whisper sv (Some audio) = inl t).
Proof.
  rewrite new_calls_eq. repeat split.
  - apply transcribe_after_download.
    intros p Hp. apply batch_tail_cases in Hp as [Hp|[idea Hp]]; discriminate.
  - intros pre u e post E Hu.
    eapply (failed_download_ends_item sv selected_videos); try eassumption.
    + intros v Hv. apply batch_tail_cases in Hv as [Hv|[idea Hv]]; discriminate.
    + apply batch_tail_start.
  - intros ts t Hts Ht. apply synthesize_in_loop in Hts.
    apply batch_tail_cases in Hts as [[= ->]|[idea [=]]].
    apply list_elem_of_In, list_elem_of_omap in Ht as (u & Hu & Hut).
    apply item_transcript_inv in Hut as (audio & Hf & Hw & _).
    exists u, audio. rewrite <- list_elem_of_In. auto.
Qed.

(** C3: when the transcription of a selected video raises, [transcribe_audio]
    hands back the empty text, the loop collects what it collects without
    that video, the synthesis is asked about the other transcripts only, and
    the row that is saved still lists the video among its URLs next to the
    transcripts of the others: nothing records the failure for the video. *)
Theorem failed_transcript_omitted (sv : services) (key : option string)
    (before after : list string) (url : string) (w w' : world) :
  transcription_fails sv url ->
  (transcribe_audio sv (temp_audio_path url) (download_audio sv url w).2).1 = ""
  /\ (process_videos sv (before ++ url :: after) w).1
     = (process_videos sv (before ++ after) w').1
  /\ (forall ts,
        In (Synthesize ts) (new_calls sv key (before ++ url :: after) w) ->
        ts = (process_videos sv (before ++ after) w').1)
  /\ (forall urls transcript idea,
        In (Persist urls transcript idea)
           (new_calls sv key (before ++ url :: after) w) ->
        urls = Py.join ", " (before ++ url :: after)
        /\ transcript = Py.join (String "010" "")
                          (process_videos sv (before ++ after) w').1).
Proof.
  intros Hfail.
  assert (Hnone : item_transcript sv url = None)
    by (apply failed_item_transcript; now right).
  assert (Homit : omap (item_transcript sv) (before ++ url :: after)
                  = omap (item_transcript sv) (before ++ after)).
  { rewrite !omap_app. cbn [omap list_omap]. now rewrite Hnone. }
  destruct Hfail as (audio & e & Hf & He).
  repeat split.
  - unfold download_audio, transcribe_audio. rewrite Hf.
    cbn [snd files log set_files]. rewrite lookup_insert_eq, He. reflexivity.
  - now rewrite !process_videos_result.
  - intros ts Hts. rewrite new_calls_eq in Hts. apply synthesize_in_loop in Hts.
    apply batch_tail_cases in Hts as [[= ->]|[idea [=]]].
    now rewrite process_videos_result.
  - rewrite new_calls_eq in H. apply persist_in_loop in H.
    apply batch_tail_cases in H as [[=]|[idea' [= -> _ _]]]. reflexivity.
  - rewrite new_calls_eq in H. apply persist_in_loop in H.
    apply batch_tail_cases in H as [[=]|[idea' [= _ -> _]]].
    now rewrite process_videos_result, Homit.
Qed.

End StageClaims.

Section StageWitnesses.
Import Observe ObserveReport.
Import YTPI Demo.
Local Open Scope list_scope.

Example demo_calls :
  new_calls sv (Some "sk-test") [talk_a; blocked; garbled; talk_b] empty_world
  = [Download talk_a; Transcribe (temp_audio_path talk_a); Remove (temp_audio_path talk_a);
     Download blocked;
     Download garbled; Transcribe (temp_audio_path garbled); Remove (temp_audio_path garbled);
     Download talk_b; Transcribe (temp_audio_path talk_b); Remove (temp_audio_path talk_b);
     Synthesize ["text of mp3 of " +:+ talk_a; "text of mp3 of " +:+ talk_b];
     Persist (Py.join ", " [talk_a; blocked; garbled; talk_b])
       (Py.join (String "010" "")
          ["text of mp3 of " +:+ talk_a; "text of mp3 of " +:+ talk_b])
       "an idea"].
Proof. rewrite new_calls_eq. vm_compute. reflexivity. Qed.

Lemma failure_isolation_witness :
  (forall v, In v ([talk_a] ++ [talk_b]) ->
             In (Download v) (new_calls sv (Some "sk-test")
                                ([talk_a] ++ blocked :: [talk_b]) empty_world))
  /\ (process_videos sv ([talk_a] ++ blocked :: [talk_b]) empty_world).1
     = (process_videos sv [talk_a] empty_world).1
         ++ (process_videos sv [talk_b] empty_world).1
  /\ (process_videos sv_unblocked ([talk_a] ++ blocked :: [talk_b]) empty_world).1
     = (process_videos sv [talk_a] empty_world).1
         ++ (process_videos sv_unblocked [blocked] empty_world).1
         ++ (process_videos sv [talk_b] empty_world).1.
Proof.
  apply (failure_isolation sv sv_unblocked (Some "sk-test") [talk_a] [talk_b]
           blocked empty_world empty_world).
  - left. exists "HTTP Error 403: Forbidden". reflexivity.
  - intros v [<-|[<-|[]]]; split; intros; reflexivity.
Defined.

Lemma stages_in_order_witness :
  (forall pre p post,
      new_calls sv (Some "sk-test") [talk_a; blocked; talk_b] empty_world
      = pre ++ Transcribe p :: post ->
      exists pre' u audio,
        pre = pre' ++ [Download u] /\ In u [talk_a; blocked; talk_b]
        /\ fetch sv u = inl audio /\ p = temp_audio_path u)
  /\ (forall pre u e post,
        new_calls sv (Some "sk-test") [talk_a; blocked; talk_b] empty_world
        = pre ++ Download u :: post ->
        fetch sv u = inr e ->
        forall c, head post = Some c ->
                  (exists v, c = Download v) \/ (exists ts, c = Synthesize ts))
  /\ (forall ts t,
        In (Synthesize ts)
           (new_calls sv (Some "sk-test") [talk_a; blocked; talk_b] empty_world) ->
        In t ts ->
        exists u audio,
          In u [talk_a; blocked; talk_b] /\ fetch sv u = inl audio
          /\ whisper sv (Some audio) = inl t).
Proof.
  exact (stages_in_order sv (Some "sk-test") [talk_a; blocked; talk_b] empty_world).
Defined.

Lemma failed_transcript_omitted_witness :
  (transcribe_audio sv (temp_audio_path garbled)
     (download_audio sv garbled empty_world).2).1 = ""
  /\ (process_videos sv ([talk_a] ++ garbled :: [talk_b]) empty_world).1
     = (process_videos sv ([talk_a] ++ [talk_b]) empty_world).1
  /\ (forall ts,
        In (Synthesize ts)
           (new_calls sv (Some "sk-test") ([talk_a] ++ garbled :: [talk_b]) empty_world) ->
        ts = (process_videos sv ([talk_a] ++ [talk_b]) empty_world).1)
  /\ (forall urls transcript idea,
        In (Persist urls transcript idea)
           (new_calls sv (Some "sk-test") ([talk_a] ++ garbled :: [talk_b]) empty_world) ->
        urls = Py.join ", " ([talk_a] ++ garbled :: [talk_b])
        /\ transcript = Py.join (String "010" "")
                          (process_videos sv ([talk_a] ++ [talk_b]) empty_world).1).
Proof.
  apply (failed_transcript_omitted sv (Some "sk-test") [talk_a] [talk_b] garbled
           empty_world empty_world).
  exists ("mp3 of " +:+ garbled), "Failed to load audio". split; reflexivity.
Defined.

End StageWitnesses.

(** ** Search *)
Section Search.
Import Observe ObserveReport.
Import YTPI.
Local Open Scope list_scope.

Lemma slice_to_length {A} (xs : list A) (k : Z) :
  0 <= k -> Z.of_nat (length (Py.slice_to xs k)) <= k.
Proof.
  intros Hk. unfold Py.slice_to.
  destruct (Z.leb_spec 0 k) as [_|]; [|lia].
  rewrite length_firstn. lia.
Qed.

(** When the loop over the hits returns, it has added one row per hit. *)
Lemma collect_infos_length (sv : services) (vs : list video)
    (videos rows : list video_info) (w w' : world) :
  collect_infos sv vs videos w = (Py.Return rows, w') ->
  length rows = (length videos + length vs)%nat.
Proof.
  revert videos w. induction vs as [|v vs IH]; intros videos w; cbn [collect_infos].
  - intros [= <- _]. cbn. lia.
  - destruct (get_video_info sv v w) as [[row|e] w1]; [|discriminate].
    intros H. apply IH in H. rewrite H, length_app. cbn. lia.
Qed.

(** C4: for every keyword and every limit, a count of rows,
    [search_videos] returns a table and never raises; the table has at most
    [limit] rows and no more rows than the search has hits; it is the empty
    table when the search finds nothing, when the search itself raises and
    when reading a hit raises. *)
Theorem search_videos_at_most_limit (sv : services) (keyword : string)
    (limit : nat) (w : world) :
  exists rows w',
    search_videos sv keyword (Z.of_nat limit) w = (Py.Return rows, w')
    /\ (length rows <= limit)%nat
    /\ (forall results, search sv keyword = inl results ->
                        (length rows <= length results)%nat)
    /\ (search sv keyword = inl [] -> rows = [])
    /\ ((exists e, search sv keyword = inr e) -> rows = [])
    /\ (forall results e w1,
          search sv keyword = inl results ->
          collect_infos sv (Py.slice_to results (Z.of_nat limit)) [] w
          = (Py.Raise e, w1) ->
          rows = []).
Proof.
  unfold search_videos.
  destruct (search sv keyword) as [results|e0] eqn:Hs.
  - destruct (collect_infos sv (Py.slice_to results (Z.of_nat limit)) [] w)
      as [[rows|e] w1] eqn:Hc.
    + exists rows, w1. split; [reflexivity|].
      pose proof (collect_infos_length _ _ _ _ _ _ Hc) as Hlen. cbn in Hlen.
      assert (Hslice : Py.slice_to results (Z.of_nat limit) = firstn limit results).
      { unfold Py.slice_to. destruct (Z.leb_spec 0 (Z.of_nat limit)); [|lia].
        now rewrite Nat2Z.id. }
      rewrite Hslice in Hlen. rewrite length_firstn in Hlen.
      split; [lia|]. split; [intros results' [= <-]; lia|].
      split; [intros [= ->]; destruct limit; cbn in Hlen; now destruct rows|].
      split; [intros [e [=]]|].
      intros results' e w2 [= <-]. rewrite Hc. discriminate.
    + eexists [], _. split; [reflexivity|]. cbn.
      repeat split; auto; intros; lia.
  - eexists [], _. split; [reflexivity|]. cbn.
    repeat split; auto; intros; lia.
Qed.

Lemma search_videos_at_most_limit_witness :
  exists rows w',
    search_videos Demo.sv "rocq tutorial" 2 Demo.empty_world = (Py.Return rows, w')
    /\ (length rows <= 2)%nat
    /\ (forall results, search Demo.sv "rocq tutorial" = inl results ->
                        (length rows <= length results)%nat)
    /\ (search Demo.sv "rocq tutorial" = inl [] -> rows = [])
    /\ ((exists e, search Demo.sv "rocq tutorial" = inr e) -> rows = [])
    /\ (forall results e w1,
          search Demo.sv "rocq tutorial" = inl results ->
          collect_infos Demo.sv (Py.slice_to results 2) [] Demo.empty_world
          = (Py.Raise e, w1) ->
          rows = []).
Proof.
  exact (search_videos_at_most_limit Demo.sv "rocq tutorial" 2 Demo.empty_world).
Defined.

(** The default limit of five with three hits, and a limit of two. *)
Example search_three_hits :
  length (match (search_videos Demo.sv "rocq tutorial" 5 Demo.empty_world).1 with
          | Py.Return rows => rows
          | Py.Raise _ => []
          end) = 3%nat
  /\ length (match (search_videos Demo.sv "rocq tutorial" 2 Demo.empty_world).1 with
             | Py.Return rows => rows
             | Py.Raise _ => []
             end) = 2%nat.
Proof. split; reflexivity. Qed.

End Search.

(** ** Saving a report *)
Section SaveReport.
Import Observe ObserveReport.
Import ReportWriter.

Ltac run :=
  unfold mbind, M_bind, bind, mret, M_ret, ret, raise, get_fs, put_fs, print, lift;
  cbn [fst snd fs stdin stdout queries].

Lemma makedirs_reports (st : state) :
  reports_dir_available (fs st) ->
  exists st',
    makedirs_exist_ok "reports" st = (Py.Return tt, st')
    /\ fs st' = <["reports" := Dir]> (fs st)
    /\ stdin st' = stdin st /\ stdout st' = stdout st /\ queries st' = queries st.
Proof.
  intros Hav. unfold makedirs_exist_ok. run.
  destruct (fs st !! "reports") as [[|a d]|] eqn:E.
  - exists st. rewrite insert_id by assumption. auto.
  - now destruct (Hav a d).
  - eexists. split; [reflexivity|]. auto.
Qed.

Lemma writable_no_nul (f : gmap string node) (path : string) :
  writable f path = true -> Py.contains NUL path = false.
Proof.
  unfold writable. destruct (Py.contains NUL path); [discriminate|reflexivity].
Qed.




End SaveReport.

(** ** Loading a template *)
(** ** The sections of a template *)
Section TemplateSections.
Import ReportWriter ObserveReport ObserveReportMore.
Local Open Scope list_scope.

Lemma open_section_nonempty (lines : list string) (rest : list paragraph)
    (later : list (list string)) :
  open_section lines rest later <> [].
Proof.
  destruct rest as [|q rest]; cbn [open_section]; [discriminate|].
  destruct (is_heading q); [discriminate|].
  destruct later; discriminate.
Qed.

Lemma open_section_app (a b : list string) (rest : list paragraph)
    (later : list (list string)) :
  open_section (a ++ b) rest later
  = match open_section b rest later with
    | sec :: secs => (a ++ sec) :: secs
    | [] => [a ++ b]
    end.
Proof.
  destruct rest as [|q rest]; cbn [open_section]; [reflexivity|].
  destruct (is_heading q); [reflexivity|].
  destruct later as [|sec secs]; [reflexivity|]. now rewrite app_assoc.
Qed.

(** The loop of lines 133-142 with a section under way. *)
Lemma docx_sections_open (paragraphs : list paragraph)
    (sections current_section : list string) :
  current_section <> [] ->
  docx_sections paragraphs sections current_section
  = sections ++ map (Py.join (String LF ""))
                  (open_section current_section paragraphs
                     (template_sections paragraphs)).
Proof.
  revert sections current_section.
  induction paragraphs as [|p rest IH]; intros sections current_section Hne.
  - cbn [docx_sections open_section map].
    destruct current_section; [congruence|reflexivity].
  - cbn [docx_sections open_section template_sections].
    change (String.prefix "Heading" (style_name p)) with (is_heading p).
    destruct (is_heading p) eqn:E.
    + destruct current_section as [|c cs]; [congruence|].
      rewrite IH by discriminate. cbn [flush_section map].
      rewrite <- app_assoc. reflexivity.
    + rewrite IH by (destruct current_section; discriminate).
      rewrite open_section_app.
      pose proof (open_section_nonempty [text p] rest (template_sections rest)) as Hn.
      destruct (open_section [text p] rest (template_sections rest));
        [congruence|reflexivity].
Qed.

(** The loop of lines 133-142 makes the sections of the document. *)
Lemma docx_sections_spec (paragraphs : list paragraph) :
  Py.join blank_line (docx_sections paragraphs [] [])
  = sections_text (template_sections paragraphs).
Proof.
  unfold sections_text. destruct paragraphs as [|p rest]; [reflexivity|].
  cbn [docx_sections template_sections app].
  destruct (String.prefix "Heading" (style_name p));
    now rewrite docx_sections_open by discriminate.
Qed.

(** A section cut by hand, in front of what follows it. *)
Lemma template_sections_piece (p : paragraph) (body rest : list paragraph) :
  forallb (fun q => negb (is_heading q)) body = true ->
  match rest with [] => True | q :: _ => is_heading q = true end ->
  template_sections (p :: body ++ rest)
  = (text p :: map text body) :: template_sections rest.
Proof.
  intros Hbody Hrest. revert p.
  induction body as [|b body IH]; intros p.
  - cbn [app map template_sections].
    destruct rest as [|q rest]; cbn [open_section]; [reflexivity|].
    now rewrite Hrest.
  - cbn [forallb] in Hbody. apply andb_prop in Hbody as [Hb Hbody].
    change (template_sections (p :: (b :: body) ++ rest))
      with (open_section [text p] (b :: body ++ rest)
              (template_sections (b :: body ++ rest))).
    rewrite (IH Hbody b). cbn [open_section map app].
    apply negb_true_iff in Hb. now rewrite Hb.
Qed.

Lemma template_sections_pieces (more : list (list paragraph)) :
  forallb (is_section false) more = true ->
  template_sections (concat more) = map (map text) more
  /\ match concat more with [] => True | q :: _ => is_heading q = true end.
Proof.
  induction more as [|piece more IH]; intros H; [now split|].
  cbn [forallb] in H. apply andb_prop in H as [Hpiece Hmore].
  destruct (IH Hmore) as [IH1 IH2].
  destruct piece as [|p body]; [discriminate|].
  cbn [is_section orb] in Hpiece. apply andb_prop in Hpiece as [Hp Hbody].
  cbn [concat app map]. split; [|exact Hp].
  now rewrite template_sections_piece, IH1.
Qed.

(** However a document is cut into sections by hand, [template_sections]
    finds these sections. *)
Lemma template_sections_cut (pieces : list (list paragraph)) :
  well_cut pieces = true ->
  template_sections (concat pieces) = map (map text) pieces.
Proof.
  destruct pieces as [|piece more]; [reflexivity|].
  cbn [well_cut]. intros H. apply andb_prop in H as [Hpiece Hmore].
  destruct (template_sections_pieces more Hmore) as [H1 H2].
  destruct piece as [|p body]; [discriminate|].
  cbn [is_section orb andb] in Hpiece.
  cbn [concat app map]. now rewrite template_sections_piece, H1.
Qed.

End TemplateSections.

Section LoadTemplate.
Import Observe ObserveReport ObserveReportMore.
Import ReportWriter.
Local Open Scope list_scope.

Ltac run :=
  cbv beta iota zeta delta
    [mbind M_bind bind mret M_ret ret raise get_fs put_fs print lift
     try_except read_text read_bytes orb negb];
  cbn [fst snd fs stdin stdout queries].

Ltac leaf :=
  run;
  repeat match goal with
         | H : fs ?s !! ?p = _ |- context [fs ?s !! ?p] => rewrite H; run
         | H : docx_read ?l ?d = _ |- context [docx_read ?l ?d] => rewrite H; run
         | H : valid_utf8 ?d = _ |- context [valid_utf8 ?d] => rewrite H; run
         end;
  eexists _, _; split; [reflexivity|]; cbn [fs stdout];
  repeat match goal with
         | |- _ /\ _ => split
         | |- _ -> _ => intro
         | H : _ \/ _ |- _ => destruct H
         | H : exists _, _ |- _ => destruct H
         | H : ~ supported_ext _ |- _ =>
             exfalso; apply H; unfold supported_ext; tauto
         end;
  try reflexivity; try congruence; try discriminate;
  try (eexists; reflexivity).

(** C5: [load_template] never raises and leaves the files alone.  It returns
    the text for a readable [.txt] or [.md] file in UTF-8.  For a readable
    [.docx] file it returns the sections of the document, a section being
    the first paragraph or a heading with the paragraphs up to the next
    heading: the lines of a section joined by line feeds, the sections by
    blank lines, whichever way the document is cut into such sections.  It
    returns [None] after one line of diagnostic for a missing file, for any
    other extension (the line ends on the lowered extension, which for an
    ASCII extension is [template_ext]), for a directory or a file that
    cannot be opened, for bytes that are not UTF-8 and for a document the
    reader rejects. *)
Theorem load_template_total (lib : libraries) (template_path : string) (st : state) :
  exists r st',
    load_template lib template_path st = (Py.Return r, st')
    /\ fs st' = fs st
    /\ (r = None -> exists line, stdout st' = stdout st ++ [line])
    /\ (fs st !! template_path = None -> r = None)
    /\ (fs st !! template_path <> None ->
        ~ supported_ext (template_ext template_path) ->
        r = None
        /\ (exists shown_ext,
              stdout st' = stdout st
                ++ ["지원되지 않는 파일 형식입니다: " +:+ shown_ext])
        /\ (ascii_only (splitext_ext template_path) = true ->
            stdout st' = stdout st
              ++ ["지원되지 않는 파일 형식입니다: " +:+ template_ext template_path]))
    /\ (forall data,
          fs st !! template_path = Some (File true data) ->
          template_ext template_path = ".txt" \/ template_ext template_path = ".md" ->
          r = if valid_utf8 data then Some (universal_newlines data) else None)
    /\ (forall data,
          fs st !! template_path = Some (File true data) ->
          template_ext template_path = ".docx" ->
          r = match docx_read lib data with
              | inl paragraphs =>
                  Some (sections_text (template_sections paragraphs))
              | inr _ => None
              end)
    /\ (forall data pieces,
          fs st !! template_path = Some (File true data) ->
          template_ext template_path = ".docx" ->
          docx_read lib data = inl (concat pieces) ->
          well_cut pieces = true ->
          r = Some (sections_text (map (map text) pieces)))
    /\ (fs st !! template_path = Some Dir
        \/ (exists data, fs st !! template_path = Some (File false data)) ->
        supported_ext (template_ext template_path) ->
        r = None).
Proof.
  unfold load_template, template_ext, path_exists. run.
  destruct (fs st !! template_path) as [[|[|] data]|] eqn:Hp; cbn [negb];
    [| | |leaf].
  - (* a directory *)
    destruct (String.eqb_spec (lower (splitext_ext template_path)) ".docx") as [E|N1];
      [run; leaf|].
    destruct (String.eqb_spec (lower (splitext_ext template_path)) ".txt") as [E|N2];
      [run; leaf|].
    destruct (String.eqb_spec (lower (splitext_ext template_path)) ".md") as [E|N3];
      run; leaf.
  - (* a file that opens *)
    destruct (String.eqb_spec (lower (splitext_ext template_path)) ".docx") as [E|N1].
    { destruct (docx_read lib data) as [ps|e] eqn:Hd; run;
        leaf;
        try (rewrite E in *; discriminate);
        match goal with H : Some _ = Some _ |- _ => injection H as <- end;
        rewrite ?docx_sections_spec, ?Hd; try reflexivity;
        match goal with
        | H : docx_read lib data = inl (concat _) |- _ =>
            rewrite Hd in H; injection H as ->
        end;
        now rewrite template_sections_cut. }
    destruct (String.eqb_spec (lower (splitext_ext template_path)) ".txt") as [E|N2].
    { destruct (valid_utf8 data) eqn:Hv; run; leaf;
        match goal with H : Some _ = Some _ |- _ => injection H as <- end;
        now rewrite Hv. }
    destruct (String.eqb_spec (lower (splitext_ext template_path)) ".md") as [E|N3].
    { destruct (valid_utf8 data) eqn:Hv; run; leaf;
        match goal with H : Some _ = Some _ |- _ => injection H as <- end;
        now rewrite Hv. }
    run. leaf.
  - (* a file that does not open *)
    destruct (String.eqb_spec (lower (splitext_ext template_path)) ".docx") as [E|N1];
      [run; leaf|].
    destruct (String.eqb_spec (lower (splitext_ext template_path)) ".txt") as [E|N2];
      [run; leaf|].
    destruct (String.eqb_spec (lower (splitext_ext template_path)) ".md") as [E|N3];
      run; leaf.
Qed.

End LoadTemplate.

Section RoundTrip.
Import Observe ObserveReport.
Import ReportWriter.
Local Open Scope list_scope.

Ltac run :=
  cbv beta iota zeta delta
    [mbind M_bind bind mret M_ret ret raise get_fs put_fs print lift
     try_except read_text read_bytes write_text write_bytes];
  cbn [fst snd fs stdin stdout queries].

Lemma universal_newlines_id (s : string) :
  Py.contains CR s = false -> universal_newlines s = s.
Proof.
  induction s as [|c s IH]; [reflexivity|].
  cbn [Py.contains universal_newlines]. intros H.
  apply orb_false_iff in H as [Hc Hs]. rewrite Hc. now rewrite (IH Hs).
Qed.

Lemma write_newlines_posix (s : string) : write_newlines os_linesep s = s.
Proof.
  induction s as [|c s IH]; [reflexivity|].
  cbn [write_newlines]. rewrite IH.
  destruct (Ascii.eqb_spec c LF) as [->|]; reflexivity.
Qed.

(** A readable text template in UTF-8 comes back with its line ends
    translated, and nothing else happens. *)
Lemma load_template_text (lib : libraries) (template_path data : string)
    (st : state) :
  fs st !! template_path = Some (File true data) ->
  template_ext template_path = ".txt" \/ template_ext template_path = ".md" ->
  valid_utf8 data = true ->
  load_template lib template_path st
  = (Py.Return (Some (universal_newlines data)), st).
Proof.
  intros Hfile Hext Hvalid.
  unfold load_template, path_exists. run. rewrite Hfile. cbn [negb].
  unfold template_ext in Hext.
  destruct Hext as [E|E]; rewrite E; cbn [String.eqb Ascii.eqb Bool.eqb orb];
    run; rewrite Hfile, Hvalid; reflexivity.
Qed.

(** C6, as stated, fails: a template with a Windows line end is read with the
    line end translated, and the [md] report written from it differs from
    the template. *)
Lemma text_round_trip_crlf :
  let st := ReportDemo.state_with "template.md" ReportDemo.crlf_template [] in
  exists st1 st2 content written,
    load_template ReportDemo.lib "template.md" st = (Py.Return (Some content), st1)
    /\ save_report ReportDemo.lib content "copy" "md" st1 = (Py.Return tt, st2)
    /\ fs st2 !! report_path "copy" "md" = Some (File true written)
    /\ written <> ReportDemo.crlf_template.
Proof.
  eexists _, _, _, _. split; [vm_compute; reflexivity|].
  split; [vm_compute; reflexivity|].
  split; [vm_compute; reflexivity|]. vm_compute. discriminate.
Qed.

(** C6, amended: on a POSIX system, where [os.linesep] is the line feed,
    for a [.txt] or [.md] template whose bytes [x] are UTF-8 and hold no
    carriage return, [load_template] returns [x], and [save_report] with
    format [md] on what was loaded, where the report can be written
    ([reports] is a directory or can be made, and the report file can be
    opened for writing), leaves a file whose bytes are [x]. *)
Theorem text_round_trip (lib : libraries) (template_path filename x : string)
    (st : state) :
  fs st !! template_path = Some (File true x) ->
  template_ext template_path = ".txt" \/ template_ext template_path = ".md" ->
  valid_utf8 x = true ->
  Py.contains CR x = false ->
  can_save (fs st) filename "md" ->
  exists st1 st2,
    load_template lib template_path st = (Py.Return (Some x), st1)
    /\ save_report lib x filename "md" st1 = (Py.Return tt, st2)
    /\ fs st2 !! report_path filename "md" = Some (File true x).
Proof.
  intros Hfile Hext Hvalid Hcr [Hav Hw].
  pose proof (load_template_text lib template_path x st Hfile Hext Hvalid) as Hload.
  rewrite universal_newlines_id in Hload by assumption.
  destruct (makedirs_reports st Hav) as (st1' & Hmk & Hfs' & _).
  exists st. eexists. split; [exact Hload|].
  unfold save_report. run. rewrite Hmk. cbn [String.eqb Ascii.eqb Bool.eqb].
  run. rewrite (writable_no_nul _ _ Hw), Hfs', Hw, write_newlines_posix. run.
  split; [reflexivity|]. apply lookup_insert_eq.
Qed.

Lemma text_round_trip_witness :
  exists st1 st2,
    load_template ReportDemo.lib "notes/template.TXT"
      (ReportDemo.state_with "notes/template.TXT" ReportDemo.lf_template [])
    = (Py.Return (Some ReportDemo.lf_template), st1)
    /\ save_report ReportDemo.lib ReportDemo.lf_template "copy" "md" st1
       = (Py.Return tt, st2)
    /\ fs st2 !! report_path "copy" "md" = Some (File true ReportDemo.lf_template).
Proof.
  apply (text_round_trip ReportDemo.lib "notes/template.TXT" "copy"
           ReportDemo.lf_template
           (ReportDemo.state_with "notes/template.TXT" ReportDemo.lf_template [])).
  - reflexivity.
  - left. reflexivity.
  - reflexivity.
  - reflexivity.
  - split; [intros a d; vm_compute; discriminate|vm_compute; reflexivity].
Defined.

(** Why the system is named: with the line separator of Windows the text
    written for a line feed is two bytes. *)
Example write_newlines_windows :
  write_newlines (String CR (String LF "")) ReportDemo.lf_template
  <> ReportDemo.lf_template
  /\ write_newlines os_linesep ReportDemo.lf_template = ReportDemo.lf_template.
Proof. split; [vm_compute; discriminate|reflexivity]. Qed.

End RoundTrip.

(** ** The credential *)
Section Credential.
Import Observe ObserveReport.
Import YTPI.
Local Open Scope list_scope.




(** With the key set the same input runs to the end. *)
Example script_with_key :
  let '(r, st) :=
    ReportWriter.script ReportDemo.lib (Some "sk-test")
      (ReportDemo.state_with "t.md" "# T" ["1"; "md"; "P"; "a, b"; "topic"]) in
  r = Py.Return tt
  /\ ReportWriter.fs st !! "reports/P_report.md"
     = Some (ReportWriter.File true "a paragraph")
  /\ ReportWriter.stdin st = [] /\ length (ReportWriter.queries st) = 1%nat.
Proof. vm_compute. auto. Qed.

End Credential.

Section ReportWitnesses.
Import Observe ObserveReport ObserveReportMore.
Import ReportWriter.
Local Open Scope list_scope.


Lemma load_template_total_witness :
  exists st',
    load_template ReportDemo.docx_lib "plan.DOCX"
      (ReportDemo.state_with "plan.DOCX" "PK" [])
    = (Py.Return (Some ReportDemo.outline_text), st')
    /\ fs st' = fs (ReportDemo.state_with "plan.DOCX" "PK" []).
Proof.
  destruct (load_template_total ReportDemo.docx_lib "plan.DOCX"
              (ReportDemo.state_with "plan.DOCX" "PK" []))
    as (r & st' & Heq & Hfs & _ & _ & _ & _ & Hdocx & _).
  exists st'. rewrite Heq.
  rewrite (Hdocx "PK" ltac:(reflexivity) ltac:(reflexivity)).
  split; [reflexivity|exact Hfs].
Defined.

Example load_template_outline :
  load_template ReportDemo.docx_lib "plan.DOCX"
    (ReportDemo.state_with "plan.DOCX" "PK" [])
  = (Py.Return (Some ReportDemo.outline_text),
     ReportDemo.state_with "plan.DOCX" "PK" []).
Proof. reflexivity. Qed.

Example template_sections_outline :
  template_sections ReportDemo.outline
  = [["Draft"]; ["Intro"; "about"; "scope"]; ["Goals"; "one"]].
Proof. reflexivity. Qed.

Example load_template_markdown :
  (load_template ReportDemo.lib "plan.Md" (ReportDemo.state_with "plan.Md" "# 개요" [])).1
  = Py.Return (Some "# 개요").
Proof. reflexivity. Qed.

Example load_template_unsupported :
  load_template ReportDemo.lib "t.pdf" (ReportDemo.state_with "t.pdf" "%PDF" [])
  = (Py.Return None,
     {| fs := {[ "t.pdf" := File true "%PDF" ]}; stdin := [];
        stdout := ["지원되지 않는 파일 형식입니다: .pdf"]; queries := [] |}).
Proof. reflexivity. Qed.

Example load_template_missing :
  (load_template ReportDemo.lib "nowhere.md" (ReportDemo.state_with "t.md" "# T" [])).1
  = Py.Return None.
Proof. reflexivity. Qed.

Example load_template_bad_docx :
  load_template ReportDemo.lib "t.docx" (ReportDemo.state_with "t.docx" "junk" [])
  = (Py.Return None,
     {| fs := {[ "t.docx" := File true "junk" ]}; stdin := [];
        stdout := ["파일을 읽는 중 오류가 발생했습니다: File is not a zip file"];
        queries := [] |}).
Proof. reflexivity. Qed.

Example docx_sections_by_heading :
  docx_sections
    [ {| style_name := "Heading 1"; text := "Intro" |};
      {| style_name := "Normal"; text := "about" |};
      {| style_name := "Heading 2"; text := "Goals" |};
      {| style_name := "Normal"; text := "one" |} ] [] []
  = ["Intro" +:+ String LF "about"; "Goals" +:+ String LF "one"].
Proof. reflexivity. Qed.

End ReportWitnesses.

(** * Further properties *)

(** ** Files, rows and messages of the video pipeline *)
Section PipelineEffects.
Import YTPI Observe ObserveMore.
Local Open Scope list_scope.

Variable sv : services.

(** One turn of the loop deletes the temporary file of a video that was
    downloaded and touches no file otherwise. *)
Lemma process_video_files (ts : list string) (w : world) (url : string) :
  files (process_video sv (ts, w) url).2
  = match fetch sv url with
    | inl _ => delete (temp_audio_path url) (files w)
    | inr _ => files w
    end.
Proof.
  unfold process_video, download_audio.
  destruct (fetch sv url) as [audio|e]; [|reflexivity].
  rewrite temp_audio_path_truthy. unfold transcribe_audio.
  cbn [files log set_files]. rewrite lookup_insert_eq.
  destruct (whisper sv (Some audio)) as [t|e]; unfold remove_temp;
    cbn [files log set_files show]; rewrite lookup_insert_eq;
    cbn [files set_files]; apply delete_insert_eq.
Qed.

Lemma process_video_shown (ts : list string) (w : world) (url : string) :
  shown (process_video sv (ts, w) url).2
  = shown w ++ option_list (failure_message sv url).
Proof.
  unfold process_video, download_audio, failure_message.
  destruct (fetch sv url) as [audio|e]; [|reflexivity].
  rewrite temp_audio_path_truthy. unfold transcribe_audio.
  cbn [files log set_files]. rewrite lookup_insert_eq.
  destruct (whisper sv (Some audio)) as [t|e]; unfold remove_temp;
    cbn [files log set_files show]; rewrite lookup_insert_eq; cbn;
    now rewrite ?app_nil_r.
Qed.

Lemma process_video_ideas (ts : list string) (w : world) (url : string) :
  ideas (process_video sv (ts, w) url).2 = ideas w.
Proof.
  unfold process_video, download_audio.
  destruct (fetch sv url) as [audio|e]; [|reflexivity].
  rewrite temp_audio_path_truthy. unfold transcribe_audio.
  cbn [files log set_files]. rewrite lookup_insert_eq.
  destruct (whisper sv (Some audio)) as [t|e]; unfold remove_temp;
    cbn [files log set_files show]; rewrite lookup_insert_eq; reflexivity.
Qed.

(** The loop as a whole, on the files, the page and the table. *)
Lemma process_loop_effects (urls : list string) (ts : list string) (w : world) :
  let w' := (fold_left (process_video sv) urls (ts, w)).2 in
  (forall p, files w' !! p = None \/ files w' !! p = files w !! p)
  /\ (forall p, (forall u audio, In u urls -> fetch sv u = inl audio ->
                                 p <> temp_audio_path u) ->
                files w' !! p = files w !! p)
  /\ (forall u audio, In u urls -> fetch sv u = inl audio ->
                      files w' !! temp_audio_path u = None)
  /\ shown w' = shown w ++ omap (failure_message sv) urls
  /\ ideas w' = ideas w.
Proof.
  revert ts w. induction urls as [|u urls IH]; intros ts w; cbn [fold_left].
  - cbn. rewrite app_nil_r. repeat split; auto. intros ? ? [].
  - destruct (process_video sv (ts, w) u) as [ts1 w1] eqn:E.
    pose proof (process_video_files ts w u) as Hf.
    pose proof (process_video_shown ts w u) as Hs.
    pose proof (process_video_ideas ts w u) as Hi.
    rewrite E in Hf, Hs, Hi. cbn [snd] in Hf, Hs, Hi.
    destruct (IH ts1 w1) as (Hnone & Hframe & Hclean & Hshown & Hideas).
    cbn zeta. repeat split.
    + intros p. destruct (Hnone p) as [H|H]; [now left|]. rewrite H, Hf.
      destruct (fetch sv u); [|now right].
      destruct (decide (temp_audio_path u = p)) as [->|Hne].
      * left. apply lookup_delete_eq.
      * right. now apply lookup_delete_ne.
    + intros p Hp. rewrite Hframe by (intros; eapply Hp; [now right|eassumption]).
      rewrite Hf. destruct (fetch sv u) as [audio|] eqn:Hu; [|reflexivity].
      apply lookup_delete_ne. intros Heq. now apply (Hp u audio (or_introl eq_refl) Hu).
    + intros v audio [<-|Hv] Hfetch.
      * destruct (Hnone (temp_audio_path u)) as [H|H]; [exact H|].
        rewrite H, Hf, Hfetch. apply lookup_delete_eq.
      * eapply Hclean; eassumption.
    + rewrite Hshown, Hs, <- app_assoc. f_equal.
      cbn [omap list_omap]. destruct (failure_message sv u); reflexivity.
    + now rewrite Hideas.
Qed.

Lemma files_show_all (ts : list string) (w : world) :
  files (fold_left (fun w t => show StWrite t w) ts w) = files w
  /\ ideas (fold_left (fun w t => show StWrite t w) ts w) = ideas w.
Proof.
  revert w. induction ts as [|t ts IH]; intros w; cbn; [auto|].
  destruct (IH (show StWrite t w)) as [-> ->]. auto.
Qed.

(** After the loop nothing touches the files. *)
Lemma handler_files (key : option string) (selected_videos : list string) (w : world) :
  files (generate_from_selection sv key selected_videos w)
  = files (process_videos sv selected_videos w).2.
Proof.
  unfold generate_from_selection.
  destruct selected_videos as [|u0 rest]; [reflexivity|].
  destruct (process_videos sv (u0 :: rest) w) as [ts w1]. cbn [snd].
  destruct ts as [|t ts']; [reflexivity|].
  unfold generate_idea.
  destruct (complete sv key (idea_prompt (t :: ts'))) as [idea|e].
  - destruct (Py.truthy idea);
      [unfold save_idea; destruct (insert sv _ _ _)|];
      cbn [files show log add_idea];
      apply (files_show_all (t :: ts') w1).
  - cbn [files show log Py.truthy]. apply (files_show_all (t :: ts') w1).
Qed.

End PipelineEffects.

Section PipelineExtras.
Import YTPI Observe ObserveMore.
Local Open Scope list_scope.

(** X1: after a press of the button no temporary audio file of a downloaded
    video is left, whether its transcription returned or raised. *)
Theorem temp_files_cleaned (sv : services) (key : option string)
    (selected_videos : list string) (w : world) (u audio : string) :
  In u selected_videos -> fetch sv u = inl audio ->
  files (generate_from_selection sv key selected_videos w)
    !! temp_audio_path u = None.
Proof.
  rewrite handler_files. unfold process_videos.
  destruct (process_loop_effects sv selected_videos [] w)
    as (_ & _ & Hclean & _).
  apply Hclean.
Qed.

Lemma temp_files_cleaned_witness :
  files (generate_from_selection Demo.sv None [Demo.talk_a; Demo.garbled]
           Demo.empty_world) !! temp_audio_path Demo.garbled = None.
Proof.
  apply (temp_files_cleaned Demo.sv None [Demo.talk_a; Demo.garbled]
           Demo.empty_world Demo.garbled ("mp3 of " +:+ Demo.garbled)).
  - right. left. reflexivity.
  - reflexivity.
Defined.

(** X2: the loop shows one error box for each video whose download or
    transcription raised, in the order of the selection and with the text of
    the exception, and shows nothing else; it saves nothing. *)
Theorem failures_reported (sv : services) (urls : list string) (w : world) :
  shown (process_videos sv urls w).2 = shown w ++ omap (failure_message sv) urls
  /\ (forall l msg, In (l, msg) (omap (failure_message sv) urls) ->
        l = StError
        /\ exists u, In u urls
             /\ (download_fails sv u \/ transcription_fails sv u))
  /\ (forall u, In u urls -> download_fails sv u \/ transcription_fails sv u ->
        exists msg, In (StError, msg) (omap (failure_message sv) urls))
  /\ ideas (process_videos sv urls w).2 = ideas w.
Proof.
  unfold process_videos.
  destruct (process_loop_effects sv urls [] w) as (_ & _ & _ & Hshown & Hideas).
  split; [exact Hshown|]. split; [|split; [|exact Hideas]].
  - intros l msg Hin.
    apply list_elem_of_In, list_elem_of_omap in Hin as (u & Hu & Hmsg).
    apply list_elem_of_In in Hu. unfold failure_message in Hmsg.
    destruct (fetch sv u) as [audio|e] eqn:Hf.
    + destruct (whisper sv (Some audio)) as [t|e] eqn:Hw; [discriminate|].
      injection Hmsg as <- _. split; [reflexivity|].
      exists u. split; [exact Hu|]. right. exists audio, e. auto.
    + injection Hmsg as <- _. split; [reflexivity|].
      exists u. split; [exact Hu|]. left. now exists e.
  - intros u Hu Hfail.
    assert (exists msg, failure_message sv u = Some (StError, msg)) as [msg Hmsg].
    { unfold failure_message.
      destruct Hfail as [[e He]|(audio & e & Ha & He)].
      - rewrite He. eauto.
      - rewrite Ha, He. eauto. }
    exists msg. apply list_elem_of_In, list_elem_of_omap.
    exists u. split; [now apply list_elem_of_In|exact Hmsg].
Qed.

Lemma failures_reported_witness :
  shown (process_videos Demo.sv [Demo.talk_a; Demo.blocked; Demo.garbled]
           Demo.empty_world).2
  = [(StError, "오디오 다운로드 중 오류 발생: HTTP Error 403: Forbidden");
     (StError, "음성 변환 중 오류 발생: Failed to load audio")].
Proof.
  rewrite (proj1 (failures_reported Demo.sv [Demo.talk_a; Demo.blocked; Demo.garbled]
                    Demo.empty_world)).
  reflexivity.
Defined.

(** X3: a press of the button adds at most one row to the table and leaves
    the rows before it alone.  The row, when there is one, holds the joined
    selection, the joined transcripts and the non-empty answer of the
    completion to the prompt made of these transcripts, and its insertion
    went through.  When the loop collected a transcript and the completion
    answered with a non-empty text, the row is there if the insertion goes
    through; if the insertion raises, no row is added and the page ends on
    the error box of [save_idea] followed, all the same, by the box that
    says the idea was saved. *)
Theorem one_row_saved (sv : services) (key : option string)
    (selected_videos : list string) (w : world) :
  exists rows,
    ideas (generate_from_selection sv key selected_videos w) = ideas w ++ rows
    /\ (length rows <= 1)%nat
    /\ (forall urls transcript idea, In (urls, transcript, idea) rows ->
          urls = Py.join ", " selected_videos
          /\ transcript = Py.join (String "010" "") (process_videos sv selected_videos w).1
          /\ complete sv key (idea_prompt (process_videos sv selected_videos w).1)
             = inl idea
          /\ Py.truthy idea = true
          /\ insert sv urls transcript idea = None)
    /\ (forall idea,
          (process_videos sv selected_videos w).1 <> [] ->
          complete sv key (idea_prompt (process_videos sv selected_videos w).1)
          = inl idea ->
          Py.truthy idea = true ->
          match insert sv (Py.join ", " selected_videos)
                  (Py.join (String "010" "") (process_videos sv selected_videos w).1)
                  idea with
          | None =>
              rows = [(Py.join ", " selected_videos,
                       Py.join (String "010" "")
                         (process_videos sv selected_videos w).1,
                       idea)]
          | Some e =>
              rows = []
              /\ exists boxes,
                   shown (generate_from_selection sv key selected_videos w)
                   = boxes ++ [(StError, "아이디어 저장 중 오류 발생: " +:+ e);
                               (StSuccess, "아이디어가 생성되고 저장되었습니다!")]
          end).
Proof.
  unfold generate_from_selection.
  destruct selected_videos as [|u0 rest].
  - exists []. rewrite app_nil_r. repeat split; auto; try easy.
  - set (sel := u0 :: rest).
    pose proof (proj2 (proj2 (proj2 (proj2
                  (process_loop_effects sv sel [] w))))) as Hideas.
    fold (process_videos sv sel w) in Hideas. cbn zeta in Hideas.
    destruct (process_videos sv sel w) as [ts w1]. cbn [fst snd] in *.
    destruct ts as [|t ts'].
    + exists []. cbn [ideas show]. rewrite app_nil_r, Hideas.
      repeat split; auto; try easy.
    + unfold generate_idea.
      destruct (complete sv key (idea_prompt (t :: ts'))) as [idea|e] eqn:Hc.
      * destruct (Py.truthy idea) eqn:Hi.
        -- unfold save_idea.
           destruct (insert sv (Py.join ", " sel)
                       (Py.join (String "010" "") (t :: ts')) idea) as [e|] eqn:Hins;
             cbn [ideas show log add_idea];
             rewrite (proj2 (files_show_all (t :: ts') w1)), Hideas.
           ++ exists []. rewrite app_nil_r. split; [reflexivity|].
              split; [cbn; lia|]. split; [intros ? ? ? []|].
              intros idea' _ [= <-] _. rewrite Hins. split; [reflexivity|].
              cbn [shown show log]. eexists. rewrite <- app_assoc. reflexivity.
           ++ eexists [_]. split; [reflexivity|]. split; [cbn; lia|]. split.
              ** intros urls transcript idea' [[= <- <- <-]|[]]. auto.
              ** intros idea' _ [= <-] _. rewrite Hins. reflexivity.
        -- cbn [ideas show log].
           rewrite (proj2 (files_show_all (t :: ts') w1)), Hideas.
           exists []. rewrite app_nil_r. repeat split; auto; try easy;
             try (intros idea' _ [= <-] Ht; congruence).
      * cbn [ideas show log Py.truthy].
        rewrite (proj2 (files_show_all (t :: ts') w1)), Hideas.
        exists []. rewrite app_nil_r. repeat split; auto; try easy.
Qed.

Lemma one_row_saved_witness :
  ideas (generate_from_selection Demo.sv (Some "sk-test")
           [Demo.talk_a; Demo.garbled] Demo.empty_world)
  = [(Py.join ", " [Demo.talk_a; Demo.garbled],
      "text of mp3 of " +:+ Demo.talk_a, "an idea")].
Proof.
  destruct (one_row_saved Demo.sv (Some "sk-test") [Demo.talk_a; Demo.garbled]
              Demo.empty_world) as (rows & -> & _ & _ & Hrow).
  specialize (Hrow "an idea" ltac:(discriminate) eq_refl eq_refl).
  cbn in Hrow. rewrite Hrow. reflexivity.
Defined.

(** A run in which the insertion raises: nothing is saved, and the page
    shows the error and then the success. *)
Example save_idea_insert_raises :
  let sv := {| search := search Demo.sv; extract_info := extract_info Demo.sv;
               fetch := fetch Demo.sv; whisper := whisper Demo.sv;
               complete := complete Demo.sv;
               insert := fun _ _ _ => Some "database is locked" |} in
  let w := generate_from_selection sv (Some "sk-test") [Demo.talk_a]
             Demo.empty_world in
  ideas w = []
  /\ shown w
     = [(StWrite, "text of mp3 of " +:+ Demo.talk_a);
        (StWrite, "an idea");
        (StError, "아이디어 저장 중 오류 발생: database is locked");
        (StSuccess, "아이디어가 생성되고 저장되었습니다!")].
Proof. split; reflexivity. Qed.

(** X4: when no selected video yields a transcript, the completion is not
    called, nothing is saved, and the last box on the page is the error that
    no text could be extracted. *)
Theorem nothing_extracted (sv : services) (key : option string)
    (selected_videos : list string) (w : world) :
  selected_videos <> [] ->
  (forall u, In u selected_videos -> item_transcript sv u = None) ->
  (forall ts, ~ In (Synthesize ts) (new_calls sv key selected_videos w))
  /\ ideas (generate_from_selection sv key selected_videos w) = ideas w
  /\ shown (generate_from_selection sv key selected_videos w)
     = shown w ++ omap (failure_message sv) selected_videos
         ++ [(StError, "선택한 영상에서 텍스트를 추출할 수 없습니다.")].
Proof.
  intros Hne Hnone.
  assert (Hts : omap (item_transcript sv) selected_videos = []).
  { clear Hne. induction selected_videos as [|u us IH]; [reflexivity|].
    cbn [omap list_omap]. rewrite (Hnone u (or_introl eq_refl)).
    apply IH. intros v Hv. apply Hnone. now right. }
  split.
  - intros ts Hin. rewrite new_calls_eq in Hin. apply synthesize_in_loop in Hin.
    unfold batch_tail in Hin. now rewrite Hts in Hin.
  - unfold generate_from_selection.
    destruct selected_videos as [|u0 rest]; [congruence|].
    set (sel := u0 :: rest) in *.
    pose proof (process_videos_result sv sel w) as Hr. rewrite Hts in Hr.
    destruct (process_loop_effects sv sel [] w) as (_ & _ & _ & Hshown & Hideas).
    fold (process_videos sv sel w) in Hshown, Hideas. cbn zeta in Hshown, Hideas.
    destruct (process_videos sv sel w) as [ts w1]. cbn [fst snd] in *. subst ts.
    cbn [ideas shown show]. rewrite Hshown, Hideas, <- app_assoc. auto.
Qed.

Lemma nothing_extracted_witness :
  (forall ts, ~ In (Synthesize ts)
                (new_calls Demo.sv (Some "sk-test") [Demo.blocked; Demo.garbled]
                   Demo.empty_world))
  /\ ideas (generate_from_selection Demo.sv (Some "sk-test")
              [Demo.blocked; Demo.garbled] Demo.empty_world)
     = ideas Demo.empty_world
  /\ shown (generate_from_selection Demo.sv (Some "sk-test")
              [Demo.blocked; Demo.garbled] Demo.empty_world)
     = shown Demo.empty_world
         ++ omap (failure_message Demo.sv) [Demo.blocked; Demo.garbled]
         ++ [(StError, "선택한 영상에서 텍스트를 추출할 수 없습니다.")].
Proof.
  apply (nothing_extracted Demo.sv (Some "sk-test") [Demo.blocked; Demo.garbled]
           Demo.empty_world).
  - discriminate.
  - intros u [<-|[<-|[]]]; reflexivity.
Defined.

End PipelineExtras.

(** ** The search table and the page *)
Section SearchExtras.
Import YTPI Observe ObserveMore Page.
Local Open Scope list_scope.

Variable sv : services.

Lemma get_video_info_cases (v : video) (w : world) :
  (exists row w', get_video_info sv v w = (Py.Return row, w')
                  /\ row_url row = hit_url v /\ calls w' = calls w
                  /\ files w' = files w /\ ideas w' = ideas w)
  \/ (exists e w', get_video_info sv v w = (Py.Raise e, w')
                   /\ calls w' = calls w /\ files w' = files w
                   /\ ideas w' = ideas w).
Proof.
  unfold get_video_info.
  destruct (extract_info sv (video_url (video_id v))) as [result|e].
  - left. eexists _, _. split; [reflexivity|]. auto.
  - destruct (title v) as [t|e1]; [|right; eexists _, _; split; [reflexivity|auto]].
    destruct (author v) as [a|e2]; [|right; eexists _, _; split; [reflexivity|auto]].
    left. eexists _, _. split; [reflexivity|]. auto.
Qed.

Lemma get_video_info_readable (v : video) (w : world) :
  readable sv v ->
  exists row w', get_video_info sv v w = (Py.Return row, w').
Proof.
  unfold get_video_info. intros [[result Hr]|(t & a & Ht & Ha)].
  - rewrite Hr. eauto.
  - rewrite Ht, Ha. destruct (extract_info sv _); eauto.
Qed.

Lemma get_video_info_unreadable (v : video) (w : world) :
  ~ readable sv v -> exists e w', get_video_info sv v w = (Py.Raise e, w').
Proof.
  intros Hn. destruct (get_video_info_cases v w)
    as [(row & w' & H & _)|(e & w' & H & _)]; [|eauto].
  exfalso. apply Hn. unfold readable. unfold get_video_info in H.
  destruct (extract_info sv (video_url (video_id v))) as [result|e]; [eauto|].
  destruct (title v) as [t|]; [|discriminate].
  destruct (author v) as [a|]; [|discriminate]. eauto.
Qed.

(** The loop over the hits only shows boxes; when it returns, its rows are
    the rows it started with and one row per hit, with the URL of the hit. *)
Lemma collect_infos_effects (vs : list video) (videos : list video_info) (w : world) :
  let r := collect_infos sv vs videos w in
  calls r.2 = calls w /\ files r.2 = files w /\ ideas r.2 = ideas w
  /\ (forall rows, r.1 = Py.Return rows ->
        map row_url rows = map row_url videos ++ map hit_url vs).
Proof.
  revert videos w. induction vs as [|v vs IH]; intros videos w; cbn [collect_infos].
  - cbn. rewrite app_nil_r. repeat split. now intros rows [= <-].
  - destruct (get_video_info_cases v w)
      as [(row & w1 & -> & Hurl & Hc & Hf & Hi)|(e & w1 & -> & Hc & Hf & Hi)].
    + destruct (IH (videos ++ [row]) w1) as (Hc' & Hf' & Hi' & Hrows).
      cbn zeta in *. rewrite Hc', Hf', Hi'. repeat split; auto.
      intros rows Hr. rewrite (Hrows rows Hr), map_app. cbn [map].
      rewrite Hurl, <- app_assoc. reflexivity.
    + cbn. repeat split; auto. discriminate.
Qed.

Lemma collect_infos_readable (vs : list video) (videos : list video_info) (w : world) :
  Forall (readable sv) vs ->
  exists rows w', collect_infos sv vs videos w = (Py.Return rows, w').
Proof.
  intros H. revert videos w. induction H as [|v vs Hv _ IH]; intros videos w;
    cbn [collect_infos]; [eauto|].
  destruct (get_video_info_readable v w Hv) as (row & w1 & ->). apply IH.
Qed.

Lemma collect_infos_unreadable (vs : list video) (videos : list video_info) (w : world) :
  Exists (fun v => ~ readable sv v) vs ->
  exists e w', collect_infos sv vs videos w = (Py.Raise e, w').
Proof.
  intros H. revert videos w. induction H as [v vs Hv|v vs _ IH]; intros videos w;
    cbn [collect_infos].
  - destruct (get_video_info_unreadable v w Hv) as (e & w1 & ->). eauto.
  - destruct (get_video_info_cases v w)
      as [(row & w1 & -> & _)|(e & w1 & -> & _)]; [apply IH|eauto].
Qed.

(** [search_videos] only shows boxes. *)
Lemma search_videos_effects (keyword : string) (max_results : Z) (w : world) :
  let r := search_videos sv keyword max_results w in
  calls r.2 = calls w /\ files r.2 = files w /\ ideas r.2 = ideas w.
Proof.
  unfold search_videos. destruct (search sv keyword) as [results|e]; [|cbn; auto].
  pose proof (collect_infos_effects (Py.slice_to results max_results) [] w) as H.
  cbn zeta in H.
  destruct (collect_infos sv (Py.slice_to results max_results) [] w) as [[rows|e] w1];
    cbn in *; tauto.
Qed.

Lemma search_videos_urls (keyword : string) (max_results : Z) (w : world)
    (rows : list video_info) :
  (search_videos sv keyword max_results w).1 = Py.Return rows ->
  rows = []
  \/ exists results, search sv keyword = inl results
       /\ map row_url rows = map hit_url (Py.slice_to results max_results).
Proof.
  unfold search_videos. destruct (search sv keyword) as [results|e].
  - pose proof (collect_infos_effects (Py.slice_to results max_results) [] w)
      as (_ & _ & _ & H).
    destruct (collect_infos sv (Py.slice_to results max_results) [] w)
      as [[rows'|e] w1]; cbn [fst] in *.
    + intros [= <-]. right. exists results. split; [reflexivity|].
      now apply H.
    + intros [= <-]. now left.
  - intros [= <-]. now left.
Qed.

End SearchExtras.

Section SearchClaims.
Import YTPI Observe ObserveMore Page.
Local Open Scope list_scope.

(** X5: when every hit among the first [max_results] can be turned into a
    row, [search_videos] returns one row per hit, in the order of the hits,
    and the URL of each row is the watch URL of its hit. *)
Theorem search_rows_follow_hits (sv : services) (keyword : string)
    (max_results : Z) (w : world) (results : list video) :
  search sv keyword = inl results ->
  Forall (readable sv) (Py.slice_to results max_results) ->
  exists rows w',
    search_videos sv keyword max_results w = (Py.Return rows, w')
    /\ map row_url rows = map hit_url (Py.slice_to results max_results).
Proof.
  intros Hs Hr.
  destruct (collect_infos_readable sv _ [] w Hr) as (rows & w1 & Hc).
  pose proof (collect_infos_effects sv (Py.slice_to results max_results) [] w)
    as (_ & _ & _ & Hurls).
  rewrite Hc in Hurls. cbn [fst] in Hurls.
  exists rows, w1. unfold search_videos. rewrite Hs, Hc.
  split; [reflexivity|]. now apply Hurls.
Qed.

Lemma search_rows_follow_hits_witness :
  exists rows w',
    search_videos Demo.sv "rocq" 2 Demo.empty_world = (Py.Return rows, w')
    /\ map row_url rows = [Demo.talk_a; Demo.talk_b].
Proof.
  apply (search_rows_follow_hits Demo.sv "rocq" 2 Demo.empty_world Demo.hits).
  - reflexivity.
  - apply List.Forall_forall. intros v Hv. vm_compute in Hv.
    destruct Hv as [<-|[<-|[]]]; right; eexists _, _; split; reflexivity.
Defined.

(** X6: one hit among the first [max_results] that cannot be turned into a
    row (the metadata service fails and reading its title or author raises)
    empties the whole table: [search_videos] returns no row at all and ends
    on an error box. *)
Theorem unreadable_hit_empties_table (sv : services) (keyword : string)
    (max_results : Z) (w : world) (results : list video) :
  search sv keyword = inl results ->
  Exists (fun v => ~ readable sv v) (Py.slice_to results max_results) ->
  exists w' boxes e,
    search_videos sv keyword max_results w = (Py.Return [], w')
    /\ shown w' = boxes ++ [(StError, "검색 중 오류 발생: " +:+ e)].
Proof.
  intros Hs Hx.
  destruct (collect_infos_unreadable sv _ [] w Hx) as (e & w1 & Hc).
  unfold search_videos. rewrite Hs, Hc.
  eexists _, (shown w1), (Py.exn_str e). split; reflexivity.
Qed.

Lemma unreadable_hit_empties_table_witness :
  let broken := {| video_id := "brokenhit01"; title := inr "RegexMatchError";
                   author := inl "someone" |} in
  let sv := {| search := fun _ => inl (Demo.hits ++ [broken]);
               extract_info := extract_info Demo.sv;
               fetch := fetch Demo.sv; whisper := whisper Demo.sv;
               complete := complete Demo.sv; insert := insert Demo.sv |} in
  exists w' boxes e,
    search_videos sv "rocq" 5 Demo.empty_world = (Py.Return [], w')
    /\ shown w' = boxes ++ [(StError, "검색 중 오류 발생: " +:+ e)].
Proof.
  intros broken sv.
  apply (unreadable_hit_empties_table sv "rocq" 5 Demo.empty_world
           (Demo.hits ++ [broken])); [reflexivity|].
  apply List.Exists_exists. exists broken.
  split; [do 3 right; left; reflexivity|].
  intros [[result H]|(t & a & H & _)]; discriminate.
Defined.

Lemma format_duration_placeholder (seconds : Z) :
  format_duration seconds = no_duration <-> seconds = 0.
Proof.
  unfold format_duration. destruct (Z.eqb_spec seconds 0) as [|Hne]; [tauto|].
  split; [|tauto]. intros E. exfalso. revert E.
  destruct (seconds / 3600 >? 0); apply clock_has_colon.
Qed.

(** X7: for a row [get_video_info] returns, the length is a number that
    [format_duration] shows as the placeholder for no length exactly when
    the metadata service failed, its dictionary has no [duration] key, or
    the key holds 0; and the length is Python's [None], which is no number
    for [format_duration], exactly when the key holds [None]. *)
Theorem length_unknown_shown (sv : services) (v : video) (w w' : world)
    (row : video_info) :
  get_video_info sv v w = (Py.Return row, w') ->
  ((exists d, row_duration row = Some d /\ format_duration d = no_duration)
   <-> (exists e, extract_info sv (hit_url v) = inr e)
       \/ (exists result, extract_info sv (hit_url v) = inl result
             /\ (info_duration result = None
                 \/ info_duration result = Some (Some 0))))
  /\ (row_duration row = None
      <-> exists result, extract_info sv (hit_url v) = inl result
            /\ info_duration result = Some None).
Proof.
  unfold get_video_info, hit_url.
  destruct (extract_info sv (video_url (video_id v))) as [result|e].
  - intros [= <- _]. cbn [row_duration]. unfold dict_get. split; split.
    + intros (d & Hd & Hfmt). apply format_duration_placeholder in Hfmt. subst d.
      right. exists result. split; [reflexivity|].
      destruct (info_duration result) as [[d|]|]; [injection Hd as ->| |]; auto.
      discriminate.
    + intros [[e [=]]|(result' & [= <-] & [->| ->])]; exists 0; auto.
    + intros H. exists result. split; [reflexivity|].
      destruct (info_duration result) as [[d|]|]; auto; discriminate.
    + intros (result' & [= <-] & ->). reflexivity.
  - destruct (title v) as [t|]; [|discriminate].
    destruct (author v) as [a|]; [|discriminate].
    intros [= <- _]. cbn [row_duration]. split; split.
    + intros _. left. eauto.
    + intros _. exists 0. auto.
    + discriminate.
    + intros (result' & [=] & _).
Qed.

Lemma length_unknown_shown_witness :
  exists row w',
    get_video_info Demo.sv (Demo.hit "dQw4w9WgXcQ" "first") Demo.empty_world
    = (Py.Return row, w')
    /\ exists d, row_duration row = Some d /\ format_duration d = no_duration.
Proof.
  eexists _, _. split; [reflexivity|].
  apply (proj1 (length_unknown_shown Demo.sv (Demo.hit "dQw4w9WgXcQ" "first")
                  Demo.empty_world _ _ eq_refl)).
  left. exists "unavailable". reflexivity.
Defined.

Lemma split_parts_without_sep (c : ascii) (s part : string) :
  In part (split c s) -> Py.contains c part = false.
Proof.
  revert part. induction s as [|a s IH]; intros part; cbn [split].
  - intros [<-|[]]. reflexivity.
  - destruct (Ascii.eqb a c) eqn:Ha.
    + intros [<-|H]; [reflexivity|now apply IH].
    + pose proof (split_not_nil c s) as Hne.
      destruct (split c s) as [|h t]; [congruence|].
      intros [<-|H].
      * cbn [Py.contains]. rewrite Ha. apply IH. now left.
      * apply IH. now right.
Qed.

Lemma take_without (c : ascii) (n : nat) (s : string) :
  Py.contains c s = false -> Py.contains c (Py.take n s) = false.
Proof.
  revert n. induction s as [|a s IH]; intros [|n]; cbn; auto.
  intros H. apply orb_false_iff in H as [-> Hs]. now apply IH.
Qed.

Lemma last_in_or_default {A} (l : list A) (d : A) :
  List.last l d = d \/ In (List.last l d) l.
Proof.
  induction l as [|x [|y l] IH]; [now left|right; now left|].
  destruct IH as [H|H]; [left|right; right]; exact H.
Qed.

(** X8: whatever the URL, the temporary audio file is named without a
    slash: [download_audio] writes in the working directory only. *)
Theorem temp_audio_in_working_directory (url : string) :
  Py.contains "/" (temp_audio_path url) = false.
Proof.
  assert (Hname : Py.contains "/" (path_name url) = false).
  { unfold path_name.
    destruct (last_in_or_default (List.filter is_part (split "/" url)) "") as [->|H];
      [reflexivity|].
    apply filter_In in H as [H _]. now apply split_parts_without_sep in H. }
  assert (Hstem : Py.contains "/" (path_stem url) = false).
  { unfold path_stem. destruct (Py.rfind "." (path_name url)); [|exact Hname].
    destruct (_ && _); [now apply take_without|exact Hname]. }
  unfold temp_audio_path. rewrite !contains_app, Hstem. reflexivity.
Qed.

End SearchClaims.

(** ** The button and the search box *)
Section PageClaims.
Import YTPI Observe ObserveMore Page.
Local Open Scope list_scope.

Lemma search_videos_returns (sv : services) (keyword : string) (max_results : Z)
    (w : world) :
  exists rows w', search_videos sv keyword max_results w = (Py.Return rows, w').
Proof.
  unfold search_videos. destruct (search sv keyword) as [results|e]; [|eauto].
  destruct (collect_infos sv (Py.slice_to results max_results) [] w)
    as [[rows|e] w1]; eauto.
Qed.

Lemma select_checked_in (rows : list video_info) (checked : nat -> bool)
    (idx : nat) (u : string) :
  In u (select_checked rows checked idx) -> In u (map row_url rows).
Proof.
  revert idx. induction rows as [|r rows IH]; intros idx; cbn [select_checked map];
    [auto|].
  destruct (checked idx); [intros [<-|H]; [now left|]|intros H];
    right; eapply IH; eassumption.
Qed.

Lemma download_of_item (sv : services) (u v : string) :
  In (Download u) (item_calls sv v) -> u = v.
Proof.
  unfold item_calls. intros [[= ->]|H]; [reflexivity|].
  destruct (fetch sv v); cbn in H; intuition discriminate.
Qed.

(** X9: a run started by the button ends on the unbound name
    [selected_videos] exactly when the search box is empty or the search
    gave an empty table; no run of the two columns ends on an exception of
    the search. *)
Theorem button_without_table (sv : services) (key : option string)
    (search_keyword : string) (checked : nat -> bool) (w : world) :
  ((columns sv key search_keyword checked true w).1 = UnboundSelectedVideos
   <-> search_keyword = ""
       \/ (search_videos sv search_keyword 5 w).1 = Py.Return [])
  /\ (forall button e,
        (columns sv key search_keyword checked button w).1 <> Failed e).
Proof.
  unfold columns.
  destruct search_keyword as [|c kw]; cbn [Py.truthy].
  - split; [split; auto|]. intros [|] e; discriminate.
  - destruct (search_videos_returns sv (String c kw) 5 w) as (rows & w1 & ->).
    cbn [fst]. destruct rows as [|r rows].
    + split; [split; auto|]. intros [|] e; discriminate.
    + split; [|intros [|] e; discriminate].
      split; [discriminate|]. intros [H|H]; discriminate.
Qed.

Lemma button_without_table_witness :
  (columns Demo.sv (Some "sk-test") "" (fun _ => true) true Demo.empty_world).1
  = UnboundSelectedVideos.
Proof.
  apply (proj1 (button_without_table Demo.sv (Some "sk-test") ""
                  (fun _ => true) Demo.empty_world)).
  now left.
Defined.

(** X10: whatever is typed and checked, every download a run of the two
    columns starts is for the watch URL of one of the first five hits of the
    search. *)
Theorem page_downloads_hits (sv : services) (key : option string)
    (search_keyword : string) (checked : nat -> bool) (button : bool)
    (w : world) (u : string) :
  In (Download u) (calls (columns sv key search_keyword checked button w).2) ->
  In (Download u) (calls w)
  \/ exists results v,
       search sv search_keyword = inl results
       /\ In v (firstn 5 results) /\ u = hit_url v.
Proof.
  unfold columns.
  destruct (Py.truthy search_keyword); [|destruct button; cbn; auto].
  pose proof (search_videos_effects sv search_keyword 5 w) as (Hc & _).
  pose proof (search_videos_urls sv search_keyword 5 w) as Hurls.
  destruct (search_videos sv search_keyword 5 w) as [[rows|e] w1];
    cbn [fst snd] in *; [|rewrite <- Hc; auto].
  destruct rows as [|r rows]; [destruct button; cbn [snd]; rewrite <- Hc; auto|].
  destruct button; cbn [snd]; [|rewrite <- Hc; auto].
  rewrite handler_calls, Hc, !in_app_iff, in_flat_map.
  intros [H|[(v & Hv & Hd)|H]]; [now left| |].
  - apply download_of_item in Hd as ->. apply select_checked_in in Hv.
    destruct (Hurls (r :: rows) eq_refl) as [|(results & Hs & Hmap)];
      [discriminate|].
    rewrite Hmap in Hv. apply in_map_iff in Hv as (hit & <- & Hhit).
    right. exists results, hit. auto.
  - apply batch_tail_cases in H as [H|[idea H]]; discriminate.
Qed.

Lemma page_downloads_hits_witness :
  In (Download Demo.talk_b)
     (calls (columns Demo.sv (Some "sk-test") "rocq" (Nat.eqb 1) true
               Demo.empty_world).2)
  /\ (In (Download Demo.talk_b) (calls Demo.empty_world)
      \/ exists results v,
           search Demo.sv "rocq" = inl results
           /\ In v (firstn 5 results) /\ Demo.talk_b = hit_url v).
Proof.
  assert (H : In (Download Demo.talk_b)
                (calls (columns Demo.sv (Some "sk-test") "rocq" (Nat.eqb 1) true
                          Demo.empty_world).2))
    by (vm_compute; tauto).
  split; [exact H|].
  exact (page_downloads_hits Demo.sv (Some "sk-test") "rocq" (Nat.eqb 1) true
           Demo.empty_world Demo.talk_b H).
Defined.

End PageClaims.

(** ** Sections of a template *)
Section Sections.
Import ReportWriter ObserveReport ObserveReportMore.
Local Open Scope list_scope.

Lemma join_cons (sep p : string) (rest : list string) :
  rest <> [] -> Py.join sep (p :: rest) = p +:+ sep +:+ Py.join sep rest.
Proof. destruct rest; [congruence|reflexivity]. Qed.

Lemma append_assoc (a b c : string) : (a +:+ b) +:+ c = a +:+ (b +:+ c).
Proof.
  induction a as [|x a IH]; [reflexivity|].
  change (String x ((a +:+ b) +:+ c) = String x (a +:+ (b +:+ c))).
  f_equal. exact IH.
Qed.

Lemma join_app (sep : string) (xs ys : list string) :
  xs <> [] -> ys <> [] ->
  Py.join sep (xs ++ ys) = Py.join sep xs +:+ sep +:+ Py.join sep ys.
Proof.
  intros Hx Hy. induction xs as [|x [|x' xs] IH]; [congruence| |].
  - cbn [app]. now rewrite join_cons.
  - change ((x :: x' :: xs) ++ ys) with (x :: ((x' :: xs) ++ ys)).
    rewrite join_cons by discriminate. rewrite IH by discriminate.
    rewrite (join_cons sep x (x' :: xs)) by discriminate.
    now rewrite !append_assoc.
Qed.

(** Joining a group first and the groups afterwards gives the same text as
    joining all lines. *)
Lemma join_group (sep : string) (xs group ys : list string) :
  group <> [] ->
  Py.join sep (xs ++ [Py.join sep group] ++ ys) = Py.join sep (xs ++ group ++ ys).
Proof.
  intros Hg.
  assert (Hmid : Py.join sep ([Py.join sep group] ++ ys) = Py.join sep (group ++ ys)).
  { destruct ys as [|y ys]; [now rewrite !app_nil_r|].
    rewrite (join_app sep group (y :: ys)) by (assumption || discriminate).
    cbn [app]. now rewrite join_cons by discriminate. }
  destruct xs as [|x xs]; [exact Hmid|].
  rewrite !(join_app sep (x :: xs)); try discriminate.
  - now rewrite Hmid.
  - destruct group; [congruence|discriminate].
Qed.

Lemma flush_section_join (sections current_section rest : list string) :
  Py.join (String LF "") (flush_section sections current_section ++ rest)
  = Py.join (String LF "") (sections ++ current_section ++ rest).
Proof.
  unfold flush_section. destruct current_section as [|c cs]; [reflexivity|].
  rewrite <- app_assoc. apply join_group. discriminate.
Qed.

Lemma docx_sections_join (paragraphs : list paragraph)
    (sections current_section : list string) :
  Py.join (String LF "") (docx_sections paragraphs sections current_section)
  = Py.join (String LF "") (sections ++ current_section ++ map text paragraphs).
Proof.
  revert sections current_section.
  induction paragraphs as [|p ps IH]; intros sections current_section;
    cbn [docx_sections map].
  - pose proof (flush_section_join sections current_section []) as H.
    now rewrite !app_nil_r in *.
  - destruct (String.prefix "Heading" (style_name p)).
    + destruct current_section as [|c cs].
      * rewrite IH. reflexivity.
      * rewrite IH. apply (flush_section_join sections (c :: cs)).
    + rewrite IH, <- !app_assoc. reflexivity.
Qed.

Lemma docx_sections_count (paragraphs : list paragraph)
    (sections current_section : list string) :
  current_section <> [] ->
  length (docx_sections paragraphs sections current_section)
  = (length sections + count_headings paragraphs + 1)%nat.
Proof.
  revert sections current_section.
  induction paragraphs as [|p ps IH]; intros sections current_section Hc;
    cbn [docx_sections count_headings].
  - unfold flush_section. destruct current_section; [congruence|].
    rewrite length_app. cbn. lia.
  - destruct (String.prefix "Heading" (style_name p)).
    + destruct current_section as [|c cs]; [congruence|].
      rewrite IH by discriminate. unfold flush_section.
      rewrite length_app. cbn. lia.
    + rewrite IH by (destruct current_section; discriminate). lia.
Qed.

(** X11: the sections made of a document lose nothing: put together line by
    line they are the paragraphs of the document in their order; and a
    document with paragraphs gives one section, and one more for each heading
    after its first paragraph. *)
Theorem docx_sections_keep_paragraphs (paragraphs : list paragraph) :
  Py.join (String LF "") (docx_sections paragraphs [] [])
  = Py.join (String LF "") (map text paragraphs)
  /\ length (docx_sections paragraphs [] [])
     = match paragraphs with
       | [] => O
       | _ :: rest => S (count_headings rest)
       end.
Proof.
  split.
  - apply (docx_sections_join paragraphs [] []).
  - destruct paragraphs as [|p ps]; [reflexivity|].
    cbn [docx_sections].
    destruct (String.prefix "Heading" (style_name p));
      rewrite docx_sections_count by discriminate; cbn; lia.
Qed.

Lemma split_blank_lines_not_nil (s : string) : split_blank_lines s <> [].
Proof.
  destruct s as [|a r]; cbn [split_blank_lines]; [discriminate|].
  destruct (split_blank_lines r); destruct r as [|b r'];
    try destruct (Ascii.eqb a LF && Ascii.eqb b LF); discriminate.
Qed.

Lemma join_push (sep : string) (a : ascii) (h : string) (t : list string) :
  Py.join sep (String a h :: t) = String a (Py.join sep (h :: t)).
Proof. destruct t; reflexivity. Qed.

Lemma split_blank_lines_join_step (s : string) :
  Py.join blank_line (split_blank_lines s) = s
  /\ forall a, Py.join blank_line (split_blank_lines (String a s)) = String a s.
Proof.
  induction s as [|b s [IH1 IH2]].
  - split; [reflexivity|]. intros a. reflexivity.
  - split; [apply IH2|]. intros a.
    change (split_blank_lines (String a (String b s)))
      with (if Ascii.eqb a LF && Ascii.eqb b LF then "" :: split_blank_lines s
            else match split_blank_lines (String b s) with
                 | h :: t => String a h :: t
                 | [] => [String a ""]
                 end).
    destruct (Ascii.eqb_spec a LF) as [->|Ha];
      [destruct (Ascii.eqb_spec b LF) as [->|Hb]|]; cbn [andb].
    + rewrite join_cons by apply split_blank_lines_not_nil.
      rewrite IH1. reflexivity.
    + pose proof (split_blank_lines_not_nil (String b s)) as Hne.
      specialize (IH2 b).
      destruct (split_blank_lines (String b s)) as [|h t]; [congruence|].
      now rewrite join_push, IH2.
    + pose proof (split_blank_lines_not_nil (String b s)) as Hne.
      specialize (IH2 b).
      destruct (split_blank_lines (String b s)) as [|h t]; [congruence|].
      now rewrite join_push, IH2.
Qed.

(** X12: [generate_report] cuts a template into at least one section, and
    the sections, joined by blank lines as it joins the filled sections,
    give the template back: the cut loses no character. *)
Theorem template_sections_cover (template : string) :
  split_blank_lines template <> []
  /\ Py.join blank_line (split_blank_lines template) = template.
Proof.
  split.
  - apply split_blank_lines_not_nil.
  - apply split_blank_lines_join_step.
Qed.

End Sections.

(** ** What the report writer reads, asks and writes *)
Section ReportEffects.
Import ReportWriter ObserveReport ObserveReportMore.
Local Open Scope list_scope.

Ltac run :=
  cbv beta iota zeta delta
    [mbind M_bind bind mret M_ret ret raise get_fs put_fs print lift invoke
     try_except read_text read_bytes write_text write_bytes makedirs_exist_ok];
  cbn [fst snd fs stdin stdout queries].

(** The loop over the sections when the chain answers each of them. *)
Lemma fill_sections_answers (lib : libraries) (project_name team_members topic : string)
    (sections answers filled_sections : list string) (st : state) :
  Forall2 (fun section answer =>
             chain_invoke lib (section_query project_name team_members topic section)
             = inl answer) sections answers ->
  fill_sections lib project_name team_members topic sections filled_sections st
  = (Py.Return (filled_sections ++ answers),
     {| fs := fs st; stdin := stdin st; stdout := stdout st;
        queries := queries st
                   ++ map (section_query project_name team_members topic) sections |}).
Proof.
  intros H. revert filled_sections st.
  induction H as [|section answer sections answers Ha _ IH];
    intros filled_sections st; cbn [fill_sections map].
  - run. rewrite !app_nil_r. now destruct st.
  - run. rewrite Ha. run. rewrite IH. cbn [fs stdin stdout queries].
    now rewrite <- !app_assoc.
Qed.

(** The loop over the sections when the chain fails on one of them. *)
Lemma fill_sections_failure (lib : libraries) (project_name team_members topic : string)
    (done answers rest filled_sections : list string) (section msg : string)
    (st : state) :
  Forall2 (fun section answer =>
             chain_invoke lib (section_query project_name team_members topic section)
             = inl answer) done answers ->
  chain_invoke lib (section_query project_name team_members topic section) = inr msg ->
  fill_sections lib project_name team_members topic (done ++ section :: rest)
    filled_sections st
  = (Py.Raise (Py.LibraryError msg),
     {| fs := fs st; stdin := stdin st; stdout := stdout st;
        queries := queries st
                   ++ map (section_query project_name team_members topic)
                        (done ++ [section]) |}).
Proof.
  intros H Hfail. revert filled_sections st.
  induction H as [|s a done answers Ha _ IH]; intros filled_sections st;
    cbn [fill_sections map app].
  - run. rewrite Hfail. reflexivity.
  - run. rewrite Ha. run. rewrite IH. cbn [fs stdin stdout queries].
    now rewrite <- !app_assoc.
Qed.

(** X14: with a template, [generate_report] asks the chain once per section,
    in the order of the template, and returns the answers joined by blank
    lines; it reads and prints nothing and writes no file. *)
Theorem template_report (lib : libraries) (project_name team_members topic : string)
    (template : string) (answers : list string) (st : state) :
  template <> "" ->
  Forall2 (fun section answer =>
             chain_invoke lib (section_query project_name team_members topic section)
             = inl answer) (split_blank_lines template) answers ->
  generate_report lib project_name team_members topic (Some template) st
  = (Py.Return (Py.join blank_line answers),
     {| fs := fs st; stdin := stdin st; stdout := stdout st;
        queries := queries st
                   ++ map (section_query project_name team_members topic)
                        (split_blank_lines template) |}).
Proof.
  intros Hne H. unfold generate_report.
  destruct template as [|c t]; [congruence|]. cbn [Py.truthy_opt Py.truthy default].
  run. rewrite (fill_sections_answers _ _ _ _ _ _ _ _ H). reflexivity.
Qed.

Lemma template_report_witness :
  generate_report ReportDemo.lib "P" "a, b" "topic"
    (Some ("# Goal" +:+ blank_line +:+ "# Plan"))
    (ReportDemo.state_with "t.md" "# T" [])
  = (Py.Return ("a paragraph" +:+ blank_line +:+ "a paragraph"),
     {| fs := {[ "t.md" := File true "# T" ]}; stdin := []; stdout := [];
        queries := [section_query "P" "a, b" "topic" "# Goal";
                    section_query "P" "a, b" "topic" "# Plan"] |}).
Proof.
  apply (template_report ReportDemo.lib "P" "a, b" "topic"
           ("# Goal" +:+ blank_line +:+ "# Plan") ["a paragraph"; "a paragraph"]
           (ReportDemo.state_with "t.md" "# T" [])).
  - discriminate.
  - repeat constructor.
Defined.

(** X15: when the chain fails on a section, [generate_report] raises at
    once: the sections after it are not asked, and the answers collected so
    far are dropped. *)
Theorem template_report_failure (lib : libraries)
    (project_name team_members topic : string) (template : string)
    (done answers rest : list string) (section msg : string) (st : state) :
  template <> "" ->
  split_blank_lines template = done ++ section :: rest ->
  Forall2 (fun section answer =>
             chain_invoke lib (section_query project_name team_members topic section)
             = inl answer) done answers ->
  chain_invoke lib (section_query project_name team_members topic section) = inr msg ->
  generate_report lib project_name team_members topic (Some template) st
  = (Py.Raise (Py.LibraryError msg),
     {| fs := fs st; stdin := stdin st; stdout := stdout st;
        queries := queries st
                   ++ map (section_query project_name team_members topic)
                        (done ++ [section]) |}).
Proof.
  intros Hne Hsplit H Hfail. unfold generate_report.
  destruct template as [|c t]; [congruence|]. cbn [Py.truthy_opt Py.truthy default].
  change (id (String c t)) with (String c t).
  rewrite Hsplit. run.
  rewrite (fill_sections_failure _ _ _ _ _ _ _ _ _ _ _ H Hfail). reflexivity.
Qed.

Lemma template_report_failure_witness :
  let lib := {| chain_invoke := fun query =>
                  if String.eqb query (section_query "P" "a" "t" "# Plan")
                  then inr "Rate limit reached" else inl "a paragraph";
                docx_read := docx_read ReportDemo.lib;
                pdf_render := pdf_render ReportDemo.lib;
                docx_render := docx_render ReportDemo.lib |} in
  generate_report lib "P" "a" "t"
    (Some ("# Goal" +:+ blank_line +:+ "# Plan" +:+ blank_line +:+ "# End"))
    (ReportDemo.state_with "t.md" "# T" [])
  = (Py.Raise (Py.LibraryError "Rate limit reached"),
     {| fs := {[ "t.md" := File true "# T" ]}; stdin := []; stdout := [];
        queries := [section_query "P" "a" "t" "# Goal";
                    section_query "P" "a" "t" "# Plan"] |}).
Proof.
  intros lib.
  apply (template_report_failure lib "P" "a" "t"
           ("# Goal" +:+ blank_line +:+ "# Plan" +:+ blank_line +:+ "# End")
           ["# Goal"] ["a paragraph"] ["# End"] "# Plan" "Rate limit reached"
           (ReportDemo.state_with "t.md" "# T" [])).
  - discriminate.
  - reflexivity.
  - repeat constructor.
  - reflexivity.
Defined.

End ReportEffects.

(** ** The questions of [main] *)
Section Dialogue.
Import ReportWriter ObserveReport ObserveReportMore.
Local Open Scope list_scope.

Ltac run :=
  cbv beta iota zeta delta
    [mbind M_bind bind mret M_ret ret raise get_fs put_fs print lift invoke
     input try_except read_text read_bytes write_text write_bytes];
  cbn [fst snd fs stdin stdout queries].

Lemma input_until_on_skips (prompt complaint : string) (norm : string -> string)
    (valid : string -> bool) (bad : list string) (good : string)
    (rest out : list string) :
  Forall (fun line => valid (norm line) = false) bad ->
  valid (norm good) = true ->
  input_until_on prompt complaint norm valid (bad ++ good :: rest) out
  = (Py.Return (norm good), rest,
     out ++ flat_map (fun _ => [prompt; complaint]) bad ++ [prompt]).
Proof.
  intros Hbad Hgood. revert out.
  induction Hbad as [|line bad Hline _ IH]; intros out; cbn [app input_until_on flat_map].
  - now rewrite Hgood.
  - rewrite Hline, IH, <- !app_assoc. reflexivity.
Qed.

Lemma input_until_on_eof (prompt complaint : string) (norm : string -> string)
    (valid : string -> bool) (lines out : list string) :
  Forall (fun line => valid (norm line) = false) lines ->
  input_until_on prompt complaint norm valid lines out
  = (Py.Raise Py.EOFError, [],
     out ++ flat_map (fun _ => [prompt; complaint]) lines ++ [prompt]).
Proof.
  intros Hbad. revert out.
  induction Hbad as [|line bad Hline _ IH]; intros out; cbn [input_until_on flat_map].
  - reflexivity.
  - rewrite Hline, IH, <- !app_assoc. reflexivity.
Qed.

(** X16: a question of [main] that checks its answer is asked again after
    each answer it rejects, with one complaint per rejected answer, and
    returns the first answer it accepts, leaving the lines after it unread;
    when the input ends before an accepted answer, [EOFError] comes out
    after the last prompt. *)
Theorem input_until_first_valid (prompt complaint : string)
    (norm : string -> string) (valid : string -> bool) (bad : list string)
    (st : state) :
  Forall (fun line => valid (norm line) = false) bad ->
  (forall good rest,
      valid (norm good) = true -> stdin st = bad ++ good :: rest ->
      input_until prompt complaint norm valid st
      = (Py.Return (norm good),
         {| fs := fs st; stdin := rest;
            stdout := stdout st ++ flat_map (fun _ => [prompt; complaint]) bad
                        ++ [prompt];
            queries := queries st |}))
  /\ (stdin st = bad ->
      input_until prompt complaint norm valid st
      = (Py.Raise Py.EOFError,
         {| fs := fs st; stdin := [];
            stdout := stdout st ++ flat_map (fun _ => [prompt; complaint]) bad
                        ++ [prompt];
            queries := queries st |})).
Proof.
  intros Hbad. split.
  - intros good rest Hgood Hin. unfold input_until.
    rewrite Hin, (input_until_on_skips _ _ _ _ _ _ _ _ Hbad Hgood). reflexivity.
  - intros Hin. unfold input_until.
    rewrite Hin, (input_until_on_eof _ _ _ _ _ _ Hbad). reflexivity.
Qed.

Lemma input_until_first_valid_witness :
  input_until "format? " "again" lower (one_of ["md"; "pdf"; "docs"])
    (ReportDemo.state_with "t.md" "# T" ["html"; "PDF"; "next"])
  = (Py.Return "pdf",
     {| fs := {[ "t.md" := File true "# T" ]}; stdin := ["next"];
        stdout := ["format? "; "again"; "format? "]; queries := [] |}).
Proof.
  apply (proj1 (input_until_first_valid "format? " "again" lower
                  (one_of ["md"; "pdf"; "docs"]) ["html"]
                  (ReportDemo.state_with "t.md" "# T" ["html"; "PDF"; "next"])
                  ltac:(repeat constructor)) "PDF" ["next"]);
    reflexivity.
Defined.

Lemma universal_newlines_no_cr_step (s : string) :
  Py.contains CR (universal_newlines s) = false
  /\ forall c, Py.contains CR (universal_newlines (String c s)) = false.
Proof.
  induction s as [|b s [IH1 IH2]].
  - split; [reflexivity|]. intros c. cbn [universal_newlines].
    destruct (Ascii.eqb c CR) eqn:E; cbn [Py.contains]; [reflexivity|].
    now rewrite E.
  - split; [apply IH2|]. intros c.
    change (universal_newlines (String c (String b s)))
      with (if Ascii.eqb c CR then
              if Ascii.eqb b LF then String LF (universal_newlines s)
              else String LF (universal_newlines (String b s))
            else String c (universal_newlines (String b s))).
    destruct (Ascii.eqb c CR) eqn:E.
    + destruct (Ascii.eqb b LF); cbn [Py.contains];
        [rewrite IH1|rewrite (IH2 b)]; reflexivity.
    + cbn [Py.contains]. now rewrite E, (IH2 b).
Qed.

(** X17: for every UTF-8 text template, carriage returns or not, the [md]
    report saved from what [load_template] returned holds the template with
    each line end turned into a line feed: no carriage return is left in it,
    and reading it in turn changes nothing more. *)
Theorem text_round_trip_normalises (lib : libraries)
    (template_path filename x : string) (st : state) :
  fs st !! template_path = Some (File true x) ->
  template_ext template_path = ".txt" \/ template_ext template_path = ".md" ->
  valid_utf8 x = true ->
  can_save (fs st) filename "md" ->
  exists y st2,
    load_template lib template_path st = (Py.Return (Some y), st)
    /\ save_report lib y filename "md" st = (Py.Return tt, st2)
    /\ fs st2 !! report_path filename "md" = Some (File true y)
    /\ y = universal_newlines x
    /\ Py.contains CR y = false
    /\ universal_newlines y = y.
Proof.
  intros Hfile Hext Hvalid [Hav Hw].
  pose proof (load_template_text lib template_path x st Hfile Hext Hvalid) as Hload.
  pose proof (proj1 (universal_newlines_no_cr_step x)) as Hcr.
  destruct (makedirs_reports st Hav) as (st1 & Hmk & Hfs & _).
  exists (universal_newlines x). eexists. split; [exact Hload|].
  unfold save_report. run. rewrite Hmk. cbn [String.eqb Ascii.eqb Bool.eqb].
  run. rewrite (writable_no_nul _ _ Hw), Hfs, Hw, write_newlines_posix. run.
  split; [reflexivity|]. split; [apply lookup_insert_eq|].
  split; [reflexivity|]. split; [exact Hcr|].
  now apply universal_newlines_id.
Qed.

Lemma text_round_trip_normalises_witness :
  exists y st2,
    load_template ReportDemo.lib "template.md"
      (ReportDemo.state_with "template.md" ReportDemo.crlf_template [])
    = (Py.Return (Some y),
       ReportDemo.state_with "template.md" ReportDemo.crlf_template [])
    /\ save_report ReportDemo.lib y "copy" "md"
         (ReportDemo.state_with "template.md" ReportDemo.crlf_template [])
       = (Py.Return tt, st2)
    /\ fs st2 !! report_path "copy" "md" = Some (File true y)
    /\ y = universal_newlines ReportDemo.crlf_template
    /\ Py.contains CR y = false
    /\ universal_newlines y = y.
Proof.
  apply (text_round_trip_normalises ReportDemo.lib "template.md" "copy"
           ReportDemo.crlf_template
           (ReportDemo.state_with "template.md" ReportDemo.crlf_template [])).
  - reflexivity.
  - right. reflexivity.
  - reflexivity.
  - split; [intros a d; vm_compute; discriminate|vm_compute; reflexivity].
Defined.

End Dialogue.

(** ** A whole run of [main] *)
Section WholeRun.
Import ReportWriter ObserveReport ObserveReportMore.
Local Open Scope list_scope.

Ltac run :=
  cbv beta iota zeta delta
    [mbind M_bind bind mret M_ret ret raise get_fs put_fs print lift invoke
     input try_except read_text read_bytes write_text write_bytes];
  cbn [fst snd fs stdin stdout queries].

Lemma input_until_accepts (prompt complaint : string) (norm : string -> string)
    (valid : string -> bool) (bad : list string) (good : string)
    (rest : list string) (st : state) :
  Forall (fun line => valid (norm line) = false) bad ->
  valid (norm good) = true ->
  stdin st = bad ++ good :: rest ->
  input_until prompt complaint norm valid st
  = (Py.Return (norm good),
     {| fs := fs st; stdin := rest;
        stdout := stdout st ++ flat_map (fun _ => [prompt; complaint]) bad ++ [prompt];
        queries := queries st |}).
Proof.
  intros Hbad Hgood Hin. unfold input_until.
  rewrite Hin, (input_until_on_skips _ _ _ _ _ _ _ _ Hbad Hgood). reflexivity.
Qed.






End WholeRun.

Section FailedRun.
Import ReportWriter ObserveReport ObserveReportMore.
Local Open Scope list_scope.

Ltac run :=
  cbv beta iota zeta delta
    [mbind M_bind bind mret M_ret ret raise get_fs put_fs print lift invoke
     input try_except read_text read_bytes write_text write_bytes];
  cbn [fst snd fs stdin stdout queries].

(** X20: when the chain fails on the default query, [main] ends on that
    exception, which nothing catches, after the one query: no file is
    written and the [reports] directory is not even made. *)
Theorem main_chain_failure (lib : libraries) (st : state)
    (bad1 bad2 rest : list string)
    (format project_name team_members topic msg : string) :
  Forall (fun line => one_of ["1"; "2"] line = false) bad1 ->
  Forall (fun line => one_of ["md"; "pdf"; "docs"] (lower line) = false) bad2 ->
  one_of ["md"; "pdf"; "docs"] (lower format) = true ->
  stdin st = bad1 ++ "1" :: bad2
               ++ format :: project_name :: team_members :: topic :: rest ->
  chain_invoke lib (default_query project_name team_members topic) = inr msg ->
  exists st',
    main lib st = (Py.Raise (Py.LibraryError msg), st')
    /\ fs st' = fs st
    /\ stdin st' = rest
    /\ queries st' = queries st ++ [default_query project_name team_members topic].
Proof.
  intros Hbad1 Hbad2 Hfmt Hin Hchain.
  unfold main. run.
  rewrite (input_until_accepts _ _ (fun s => s) _ bad1 "1" _ st Hbad1 eq_refl Hin).
  cbn [String.eqb Ascii.eqb Bool.eqb]. run.
  erewrite (input_until_accepts _ _ lower _ bad2 format _ _ Hbad2);
    [|exact Hfmt|reflexivity].
  run. unfold generate_report. cbn [Py.truthy_opt]. run. rewrite Hchain. run.
  eexists. split; [reflexivity|]. auto.
Qed.

Lemma main_chain_failure_witness :
  let lib := {| chain_invoke := fun _ => inr "Connection error";
                docx_read := docx_read ReportDemo.lib;
                pdf_render := pdf_render ReportDemo.lib;
                docx_render := docx_render ReportDemo.lib |} in
  exists st',
    main lib (ReportDemo.state_with "t.md" "# T" ["1"; "pdf"; "P"; "a"; "t"])
    = (Py.Raise (Py.LibraryError "Connection error"), st')
    /\ fs st' = fs (ReportDemo.state_with "t.md" "# T" ["1"; "pdf"; "P"; "a"; "t"])
    /\ stdin st' = []
    /\ queries st'
       = queries (ReportDemo.state_with "t.md" "# T" ["1"; "pdf"; "P"; "a"; "t"])
           ++ [default_query "P" "a" "t"].
Proof.
  intros lib.
  apply (main_chain_failure lib
           (ReportDemo.state_with "t.md" "# T" ["1"; "pdf"; "P"; "a"; "t"])
           [] [] [] "pdf" "P" "a" "t" "Connection error");
    (constructor || reflexivity).
Defined.

End FailedRun.

Section NoBox.
Import YTPI Observe ObserveMore Page.
Local Open Scope list_scope.

Lemma select_checked_none (rows : list video_info) (checked : nat -> bool) (idx : nat) :
  (forall i, checked i = false) -> select_checked rows checked idx = [].
Proof.
  intros H. revert idx. induction rows as [|r rows IH]; intros idx;
    cbn [select_checked]; [reflexivity|].
  rewrite H. apply IH.
Qed.

(** X21: with a table on the page and no box checked, the button changes
    nothing: the run ends as a run without the button does, with no
    download, no call and no message of its own. *)
Theorem button_without_selection (sv : services) (key : option string)
    (search_keyword : string) (checked : nat -> bool) (w : world)
    (row : video_info) (rows : list video_info) :
  search_keyword <> "" ->
  (search_videos sv search_keyword 5 w).1 = Py.Return (row :: rows) ->
  (forall i, checked i = false) ->
  columns sv key search_keyword checked true w
  = columns sv key search_keyword checked false w.
Proof.
  intros Hkw Hrows Hnone. unfold columns.
  destruct search_keyword as [|c kw]; [congruence|]. cbn [Py.truthy].
  destruct (search_videos sv (String c kw) 5 w) as [r w1]. cbn [fst snd] in *.
  subst r. rewrite select_checked_none by assumption.
  reflexivity.
Qed.

Lemma button_without_selection_witness :
  columns Demo.sv (Some "sk-test") "rocq" (fun _ => false) true Demo.empty_world
  = columns Demo.sv (Some "sk-test") "rocq" (fun _ => false) false Demo.empty_world.
Proof.
  eapply (button_without_selection Demo.sv (Some "sk-test") "rocq"
            (fun _ => false) Demo.empty_world _ _
            ltac:(discriminate) eq_refl (fun _ => eq_refl)).
Defined.

End NoBox.
